(** * Aquora: heavy metal pollution indices and result rehydration

    A shallow embedding of [src/lib/calculations.ts] (numeric coercion,
    schema inference, index calculation, batch processing) and of the
    result normalisation of [src/pages/Results.tsx].

    Modelling conventions.
    - A JavaScript number is [NaN], one of the two infinities, or an exact
      rational: binary64 rounding, overflow to infinity and the sign of zero
      are not represented.
    - A JavaScript string is a [string] whose characters are code units in
      the range 0..255.
    - A plain object is the list of its own properties in [Object.keys]
      order.  A row or record read at a name it does not own gives
      [undefined], or a member inherited from [Object.prototype], which no
      parser of the program turns into a number.  The table of limits is
      read at arbitrary column names, so there the inherited members are
      modelled ([inheritedNames]).
    - Cell values are the scalars a CSV, spreadsheet or JSON reader
      produces, plus plain objects.
    - The decimal text of a number ([Number.prototype.toString]) is a
      parameter of the definitions that print one; reading that text back
      gives the number again. *)

From Stdlib Require Import ZArith QArith Qround Lqa Lia.
From Stdlib Require Import Ascii String DecimalString.
From stdpp Require Import base option list.

Local Open Scope string_scope.

(** ** Numbers *)

Inductive number : Type :=
  | NaN
  | PInf
  | NInf
  | Fin (q : Q).

Module Num.

Definition zero : number := Fin 0.
Definition one : number := Fin 1.
Definition hundred : number := Fin 100.

(** [Number.isNaN] *)
Definition isNaN (x : number) : bool :=
  match x with NaN => true | _ => false end.

(** [Number.isFinite] *)
Definition isFinite (x : number) : bool :=
  match x with Fin _ => true | _ => false end.

Definition Qlt_bool (a b : Q) : bool := negb (Qle_bool b a).

Definition Qsign (a : Q) : Z := Z.sgn (Qnum a).

Definition neg (x : number) : number :=
  match x with
  | NaN => NaN
  | PInf => NInf
  | NInf => PInf
  | Fin q => Fin (- q)
  end.

(** [x + y] *)
Definition add (x y : number) : number :=
  match x, y with
  | NaN, _ | _, NaN => NaN
  | PInf, NInf | NInf, PInf => NaN
  | PInf, _ | _, PInf => PInf
  | NInf, _ | _, NInf => NInf
  | Fin a, Fin b => Fin (a + b)
  end.

Definition infOfSign (s : Z) : number :=
  match s with
  | Z0 => NaN
  | Zpos _ => PInf
  | Zneg _ => NInf
  end.

(** [x * y] *)
Definition mul (x y : number) : number :=
  match x, y with
  | NaN, _ | _, NaN => NaN
  | PInf, PInf | NInf, NInf => PInf
  | PInf, NInf | NInf, PInf => NInf
  | PInf, Fin b | Fin b, PInf => infOfSign (Qsign b)
  | NInf, Fin b | Fin b, NInf => infOfSign (- Qsign b)
  | Fin a, Fin b => Fin (a * b)
  end.

(** [x / y]; a zero divisor counts as positive zero. *)
Definition div (x y : number) : number :=
  match x, y with
  | NaN, _ | _, NaN => NaN
  | Fin a, Fin b =>
      if Qeq_bool b 0 then infOfSign (Qsign a) else Fin (a / b)
  | Fin _, _ => Fin 0
  | PInf, Fin b => if Qlt_bool b 0 then NInf else PInf
  | NInf, Fin b => if Qlt_bool b 0 then PInf else NInf
  | _, _ => NaN
  end.

(** [x < y] *)
Definition ltb (x y : number) : bool :=
  match x, y with
  | NaN, _ | _, NaN => false
  | _, NInf | PInf, _ => false
  | NInf, _ | _, PInf => true
  | Fin a, Fin b => Qlt_bool a b
  end.

(** [x > y] *)
Definition gtb (x y : number) : bool := ltb y x.

(** [x <= y] *)
Definition leb (x y : number) : bool :=
  match x, y with
  | NaN, _ | _, NaN => false
  | NInf, _ | _, PInf => true
  | _, NInf | PInf, _ => false
  | Fin a, Fin b => Qle_bool a b
  end.

(** [x >= y] *)
Definition geb (x y : number) : bool := leb y x.

(** [x === y] *)
Definition eqb (x y : number) : bool :=
  match x, y with
  | PInf, PInf | NInf, NInf => true
  | Fin a, Fin b => Qeq_bool a b
  | _, _ => false
  end.

(** [Math.round]: the nearest integer, ties towards plus infinity. *)
Definition Math_round (x : number) : number :=
  match x with
  | Fin q => Fin (inject_Z (Qfloor (q + (1 # 2))))
  | _ => x
  end.

(** The truth value of a number in a condition or under [||]. *)
Definition truthy (x : number) : bool :=
  match x with
  | NaN => false
  | Fin q => negb (Qeq_bool q 0)
  | _ => true
  end.

End Num.

(** ** Strings *)

Module Str.

Definition code (c : ascii) : N := N_of_ascii c.

(** White space and line terminators among the code units below 256:
    TAB, LF, VT, FF, CR, SP and NBSP. *)
Definition isWhiteSpace (c : ascii) : bool :=
  let n := code c in
  ((9 <=? n) && (n <=? 13) || (n =? 32) || (n =? 160))%N.

Fixpoint trimStart (s : string) : string :=
  match s with
  | String c s' => if isWhiteSpace c then trimStart s' else s
  | EmptyString => EmptyString
  end.

Fixpoint trimEnd (s : string) : string :=
  match s with
  | String c s' =>
      match trimEnd s' with
      | EmptyString => if isWhiteSpace c then EmptyString else String c EmptyString
      | t => String c t
      end
  | EmptyString => EmptyString
  end.

(** [String.prototype.trim] *)
Definition trim (s : string) : string := trimEnd (trimStart s).

Definition lowerChar (c : ascii) : ascii :=
  let n := code c in
  if ((65 <=? n) && (n <=? 90)
      || (192 <=? n) && (n <=? 222) && negb (n =? 215))%N
  then ascii_of_N (n + 32) else c.

(** [String.prototype.toLowerCase] *)
Fixpoint toLowerCase (s : string) : string :=
  match s with
  | String c s' => String (lowerChar c) (toLowerCase s')
  | EmptyString => EmptyString
  end.

(** [Array.prototype.includes] on an array of strings. *)
Definition includes (l : list string) (s : string) : bool :=
  existsb (String.eqb s) l.

(** The decimal text of a natural number, as a template literal prints
    an integer. *)
Definition ofNat (n : nat) : string :=
  NilZero.string_of_uint (Nat.to_uint n).

End Str.

(** ** Reading a string as a number: [Number(s)] *)

Module StringToNumber.

Definition digitOf (base : Z) (c : ascii) : option Z :=
  let n := Z.of_N (Str.code c) in
  let d :=
    if ((48 <=? n) && (n <=? 57))%Z then Some (n - 48)%Z
    else if ((97 <=? n) && (n <=? 102))%Z then Some (n - 87)%Z
    else if ((65 <=? n) && (n <=? 70))%Z then Some (n - 55)%Z
    else None in
  match d with
  | Some v => if (v <? base)%Z then Some v else None
  | None => None
  end.

(** Consumes the leading digits of [s]: the value accumulated on top of
    [acc], the number of digits read, and the rest of the text. *)
Fixpoint scanDigits (base : Z) (s : string) (acc : Z) (count : nat)
  : Z * nat * string :=
  match s with
  | String c s' =>
      match digitOf base c with
      | Some d => scanDigits base s' (acc * base + d)%Z (S count)
      | None => (acc, count, s)
      end
  | EmptyString => (acc, count, s)
  end.

(** [m * 10^e] *)
Definition scale (m e : Z) : Q := inject_Z m * Qpower 10 e.

(** ExponentPart, after the exponent indicator. *)
Definition parseExponent (s : string) : option Z :=
  let '(negative, r) :=
    match s with
    | String "+" r => (false, r)
    | String "-" r => (true, r)
    | _ => (false, s)
    end in
  match scanDigits 10 r 0 0 with
  | (v, S _, EmptyString) => Some (if negative then - v else v)%Z
  | _ => None
  end.

(** StrUnsignedDecimalLiteral *)
Definition parseUnsignedDecimal (s : string) : option number :=
  if String.eqb s "Infinity" then Some PInf
  else
    let '(ip, ni, r1) := scanDigits 10 s 0 0 in
    let '(m, nf, r2) :=
      match r1 with
      | String "." r => scanDigits 10 r ip 0
      | _ => (ip, O, r1)
      end in
    match (ni + nf)%nat with
    | O => None
    | S _ =>
        match r2 with
        | EmptyString => Some (Fin (scale m (- Z.of_nat nf)))
        | String c r3 =>
            if (Ascii.eqb c "e" || Ascii.eqb c "E")%bool then
              match parseExponent r3 with
              | Some e => Some (Fin (scale m (e - Z.of_nat nf)))
              | None => None
              end
            else None
        end
    end.

(** NonDecimalIntegerLiteral, after the two-character prefix. *)
Definition parseRadix (base : Z) (s : string) : option number :=
  match scanDigits base s 0 0 with
  | (v, S _, EmptyString) => Some (Fin (inject_Z v))
  | _ => None
  end.

(** StrNumericLiteral *)
Definition parseNumeric (s : string) : option number :=
  match s with
  | String "0" (String "x" r) | String "0" (String "X" r) => parseRadix 16 r
  | String "0" (String "o" r) | String "0" (String "O" r) => parseRadix 8 r
  | String "0" (String "b" r) | String "0" (String "B" r) => parseRadix 2 r
  | String "+" r => parseUnsignedDecimal r
  | String "-" r => Num.neg <$> parseUnsignedDecimal r
  | _ => parseUnsignedDecimal s
  end.

(** [Number(s)]: surrounding white space is ignored, the empty text is
    zero, anything that is not a numeric literal is [NaN]. *)
Definition Number_ (s : string) : number :=
  match Str.trim s with
  | EmptyString => Num.zero
  | t => default NaN (parseNumeric t)
  end.

End StringToNumber.

Import StringToNumber.

(** ** Values and plain objects

    [VObj] is a nested plain object (the [metals] field of a stored
    result): the program carries it along and never looks inside. *)

Inductive value : Type :=
  | VUndefined
  | VNull
  | VBool (b : bool)
  | VNum (n : number)
  | VStr (s : string)
  | VObj.

(** A plain object: its own properties, in [Object.keys] order. *)
Abbreviation object := (list (string * value)).

Module Obj.

Fixpoint lookup (o : object) (k : string) : option value :=
  match o with
  | [] => None
  | (k', v) :: o' => if String.eqb k k' then Some v else lookup o' k
  end.

(** [o[k]] *)
Definition get (o : object) (k : string) : value :=
  default VUndefined (lookup o k).

(** [k in o] and [hasOwnProperty]: the keys tested by this program are
    never names inherited from [Object.prototype]. *)
Definition has (o : object) (k : string) : bool :=
  match lookup o k with Some _ => true | None => false end.

(** [o[k] = v]: an existing property keeps its position. *)
Fixpoint set (o : object) (k : string) (v : value) : object :=
  match o with
  | [] => [(k, v)]
  | (k', v') :: o' =>
      if String.eqb k k' then (k, v) :: o' else (k', v') :: set o' k v
  end.

(** [Object.keys(o)] *)
Definition keys (o : object) : list string := o.*1.

End Obj.

(** [typeof v === "number"] *)
Definition isNumber (v : value) : bool :=
  match v with VNum _ => true | _ => false end.

(** [Boolean(v)] *)
Definition ToBoolean (v : value) : bool :=
  match v with
  | VUndefined | VNull => false
  | VBool b => b
  | VNum n => Num.truthy n
  | VStr s => negb (String.eqb s "")
  | VObj => true
  end.

(** [v === undefined || v === null] *)
Definition isNullish (v : value) : bool :=
  match v with VUndefined | VNull => true | _ => false end.

(** [a ?? b] *)
Definition coalesce (a b : value) : value :=
  if isNullish a then b else a.

(** ** Reference data *)

Inductive Category : Type := Safe | SlightlyPolluted | Hazardous.

(** Standard WHO guideline values (mg/L) for common heavy metals. *)
Definition WHO_STANDARDS : list (string * number) :=
  [ ("As", Fin (1 # 100));
    ("Cd", Fin (3 # 1000));
    ("Cr", Fin (5 # 100));
    ("Cu", Fin 2);
    ("Fe", Fin (3 # 10));
    ("Pb", Fin (1 # 100));
    ("Mn", Fin (4 # 10));
    ("Ni", Fin (7 # 100));
    ("Zn", Fin 3);
    ("Hg", Fin (6 # 1000)) ].

(** The own entry of a table for a key. *)
Fixpoint tableLookup (t : list (string * number)) (k : string) : option number :=
  match t with
  | [] => None
  | (k', n) :: t' => if String.eqb k k' then Some n else tableLookup t' k
  end.

(** [x || d] for an optional number [x]. *)
Definition orNumber (x : option number) (d : number) : number :=
  match x with
  | Some n => if Num.truthy n then n else d
  | None => d
  end.

(** ** Numeric coercion *)

Section Coercion.

(** [Number.prototype.toString]: the decimal text of a number. *)
Variable Number_toString : number -> string.

(** [String(v)] *)
Definition String_ (v : value) : string :=
  match v with
  | VUndefined => "undefined"
  | VNull => "null"
  | VBool true => "true"
  | VBool false => "false"
  | VNum n => Number_toString n
  | VStr s => s
  | VObj => "[object Object]"
  end.

(** [v?.toString()] *)
Definition toStringOpt (v : value) : option string :=
  if isNullish v then None else Some (String_ v).

End Coercion.

(** [Number(String(v).trim())].  The text of a number has no surrounding
    white space and reads back as that number (ECMA-262, Number::toString),
    so on a number the expression is the identity; the other values go
    through their text. *)
Definition numberOfText (v : value) : number :=
  match v with
  | VNum n => n
  | VStr s => Number_ (Str.trim s)
  | VUndefined => Number_ (Str.trim "undefined")
  | VNull => Number_ (Str.trim "null")
  | VBool true => Number_ (Str.trim "true")
  | VBool false => Number_ (Str.trim "false")
  | VObj => Number_ (Str.trim "[object Object]")
  end.

(** Safe number parser (handles strings, trims, and ignores invalid). *)
Definition parseNumber (v : value) : option number :=
  match v with
  | VUndefined | VNull | VStr EmptyString => None
  | _ => let n := numberOfText v in
         if Num.isNaN n then None else Some n
  end.

(** Pick the first defined value among multiple possible keys. *)
Fixpoint pickNumber (sample : object) (keys : list string) : option number :=
  match keys with
  | [] => None
  | key :: rest =>
      if Obj.has sample key then
        match parseNumber (Obj.get sample key) with
        | Some val => Some val
        | None => pickNumber sample rest
        end
      else pickNumber sample rest
  end.

(** ** Index calculator *)

(** [parseNumber(sample[metal]) || 0].  A row read at a name it only
    inherits gives a function or an object, whose text is no number: the
    concentration is 0, as for a missing cell. *)
Definition concentrationOf (sample : object) (metal : string) : number :=
  orNumber (parseNumber (Obj.get sample metal)) Num.zero.

(** The names every plain object inherits from [Object.prototype]: the
    table of limits answers to them too. *)
Definition inheritedNames : list string :=
  ["constructor"; "toString"; "toLocaleString"; "valueOf"; "hasOwnProperty";
   "isPrototypeOf"; "propertyIsEnumerable"; "__proto__";
   "__defineGetter__"; "__defineSetter__"; "__lookupGetter__";
   "__lookupSetter__"].

(** [WHO_STANDARDS[metal] || 1], as the arithmetic that follows reads it.
    An own entry is its limit.  At an inherited name the table gives a
    function (for [__proto__], an object): it is truthy, so the default is
    not taken, and a division reads it as [NaN].  Any other name gives the
    default 1. *)
Definition standardOf (metal : string) : number :=
  match tableLookup WHO_STANDARDS metal with
  | Some n => if Num.truthy n then n else Num.one
  | None => if Str.includes inheritedNames metal then NaN else Num.one
  end.

(** One turn of the loop of [calculateHPI] on the pair
    [(weightedSum, totalWeight)]. *)
Definition hpiStep (sample : object) (acc : number * number) (metal : string)
  : number * number :=
  let concentration := concentrationOf sample metal in
  let standard := standardOf metal in
  let weight := Num.div Num.one standard in
  let subIndex := Num.mul (Num.div concentration standard) Num.hundred in
  (Num.add acc.1 (Num.mul weight subIndex), Num.add acc.2 weight).

(** Calculate Heavy Metal Pollution Index (HPI). *)
Definition calculateHPI (sample : object) (metals : list string) : number :=
  let '(weightedSum, totalWeight) :=
    foldl (hpiStep sample) (Num.zero, Num.zero) metals in
  if Num.gtb totalWeight Num.zero then Num.div weightedSum totalWeight
  else Num.zero.

(** Calculate Heavy Metal Evaluation Index (HEI). *)
Definition calculateHEI (sample : object) (metals : list string) : number :=
  foldl (fun sum metal =>
           let concentration := concentrationOf sample metal in
           let standard := standardOf metal in
           Num.add sum (Num.div concentration standard))
        Num.zero metals.

(** Calculate Contamination Degree (Cd). *)
Definition calculateCd (sample : object) (metals : list string) : number :=
  foldl (fun sum metal =>
           let concentration := concentrationOf sample metal in
           let standard := standardOf metal in
           Num.add sum (Num.div concentration standard))
        Num.zero metals.

(** Categorize water quality based on HPI. *)
Definition categorizeWaterQuality (hpi : number) : Category :=
  if Num.ltb hpi (Fin 100) then Safe
  else if Num.ltb hpi (Fin 200) then SlightlyPolluted
  else Hazardous.

(** ** Batch processor *)

Record CalculationResult : Type := mkResult {
  id : string;
  latitude : option number;
  longitude : option number;
  hpi : number;
  hei : number;
  cd : number;
  category : Category;
  metals : list (string * number)
}.

(** [Math.round(x * 100) / 100] *)
Definition round2 (x : number) : number :=
  Num.div (Num.Math_round (Num.mul x Num.hundred)) Num.hundred.

(** The exclusion list, after [.map((k) => k.toLowerCase())]. *)
Definition exclude : list string :=
  Str.toLowerCase <$>
    ["id"; "latitude"; "longitude"; "lat"; "lon"; "lng"; "Latitude"; "Longitude"].

(** Detect metal columns (exclude id/lat/lon variants). *)
Definition detectMetalColumns (firstSample : object) : list string :=
  List.filter (fun key => negb (Str.includes exclude (Str.toLowerCase key)))
              (Obj.keys firstSample).

(** [metals[metal] = x] on the object under construction. *)
Fixpoint setMetal (m : list (string * number)) (k : string) (x : number)
  : list (string * number) :=
  match m with
  | [] => [(k, x)]
  | (k', x') :: m' =>
      if String.eqb k k' then (k, x) :: m' else (k', x') :: setMetal m' k x
  end.

Definition collectMetals (sample : object) (metalColumns : list string)
  : list (string * number) :=
  foldl (fun m metal => setMetal m metal (concentrationOf sample metal))
        [] metalColumns.

(** [`Sample ${index + 1}`] *)
Definition placeholderId (index : nat) : string :=
  "Sample " ++ Str.ofNat (index + 1).

Section BatchProcessor.

Variable Number_toString : number -> string.

(** [sample.id?.toString() || `Sample ${index + 1}`] *)
Definition sampleId (sample : object) (index : nat) : string :=
  match toStringOpt Number_toString (Obj.get sample "id") with
  | Some s => if String.eqb s "" then placeholderId index else s
  | None => placeholderId index
  end.

(** The callback of [samples.map] in [processWaterSamples]. *)
Definition processSample (metalColumns : list string)
    (index : nat) (sample : object) : CalculationResult :=
  let hpi := calculateHPI sample metalColumns in
  let hei := calculateHEI sample metalColumns in
  let cd := calculateCd sample metalColumns in
  let category := categorizeWaterQuality hpi in
  let metals := collectMetals sample metalColumns in
  {| id := sampleId sample index;
     latitude := pickNumber sample ["latitude"; "Latitude"; "lat"];
     longitude := pickNumber sample ["longitude"; "Longitude"; "lon"; "lng"];
     hpi := round2 hpi;
     hei := round2 hei;
     cd := round2 cd;
     category := category;
     metals := metals |}.

(** Process all samples and calculate indices. *)
Definition processWaterSamples (samples : list object)
  : list CalculationResult :=
  match samples with
  | [] => []
  | firstSample :: _ =>
      let metalColumns := detectMetalColumns firstSample in
      imap (processSample metalColumns) samples
  end.

End BatchProcessor.

(** ** Result rehydrator ([src/pages/Results.tsx]) *)

Module Results.

Definition latKeys : list string := ["latitude"; "Latitude"; "lat"; "Lat"].
Definition lonKeys : list string :=
  ["longitude"; "Longitude"; "lon"; "lng"; "Lon"; "Lng"].
Definition hpiKeys : list string :=
  ["hpi"; "HPI"; "hpi_value"; "hpiValue"; "hpi_val"].
Definition heiKeys : list string := ["hei"; "HEI"; "hei_value"; "heiValue"].
Definition cdKeys : list string :=
  ["cd"; "Cd"; "contamination_degree"; "contaminationDegree"].

(** [v === undefined || v === null || v === ""] *)
Definition isBlank (v : value) : bool :=
  match v with
  | VUndefined | VNull | VStr EmptyString => true
  | _ => false
  end.

(** The local [pickNumber]; [null] is [None].  A record is an object, so
    the guard [obj &&] always passes. *)
Fixpoint pickNumber (obj : object) (keys : list string) : option number :=
  match keys with
  | [] => None
  | k :: rest =>
      if Obj.has obj k then
        let v := Obj.get obj k in
        if isBlank v then pickNumber obj rest
        else
          let n := numberOfText v in
          if negb (Num.isNaN n) then Some n else pickNumber obj rest
      else pickNumber obj rest
  end.

(** The local [pickNumericAlt]; [null] is [None]. *)
Fixpoint pickNumericAlt (obj : object) (possibilities : list string)
  : option number :=
  match possibilities with
  | [] => None
  | k :: rest =>
      if Obj.has obj k then
        let v := Obj.get obj k in
        if isBlank v then pickNumericAlt obj rest
        else
          let n := numberOfText v in
          if negb (Num.isNaN n) then Some n else pickNumericAlt obj rest
      else pickNumericAlt obj rest
  end.

(** A picked number, or [null], as a property value. *)
Definition nullable (x : option number) : value :=
  match x with Some n => VNum n | None => VNull end.

(** [r.id ?? r.sample_id ?? r.SampleID ?? r.Location ?? `sample-${idx + 1}`] *)
Definition resolveId (idx : nat) (r : object) : value :=
  coalesce
    (coalesce
       (coalesce (coalesce (Obj.get r "id") (Obj.get r "sample_id"))
                 (Obj.get r "SampleID"))
       (Obj.get r "Location"))
    (VStr ("sample-" ++ Str.ofNat (idx + 1))).

(** [r.category ?? r.Category ?? r.status ?? "Unknown"] *)
Definition resolveCategory (r : object) : value :=
  coalesce
    (coalesce (coalesce (Obj.get r "category") (Obj.get r "Category"))
              (Obj.get r "status"))
    (VStr "Unknown").

(** The callback of [raw.map] in [normalizeResults]: the object literal
    [{ ...r, id, latitude, longitude, hpi, hei, cd, category }]. *)
Definition normalizeRecord (idx : nat) (r : object) : object :=
  let latitude := pickNumber r latKeys in
  let longitude := pickNumber r lonKeys in
  let hpi := pickNumericAlt r hpiKeys in
  let hei := pickNumericAlt r heiKeys in
  let cd := pickNumericAlt r cdKeys in
  let id := resolveId idx r in
  let category := resolveCategory r in
  Obj.set
    (Obj.set
       (Obj.set
          (Obj.set
             (Obj.set (Obj.set (Obj.set r "id" id) "latitude" (nullable latitude))
                      "longitude" (nullable longitude))
             "hpi" (nullable hpi))
          "hei" (nullable hei))
       "cd" (nullable cd))
    "category" category.

Definition normalizeResults (raw : list object) : list object :=
  imap normalizeRecord raw.

(** Keep only entries that have something to show (id + either coords or
    numeric metric). *)
Definition keep (r : object) : bool :=
  ToBoolean (Obj.get r "id")
  && (isNumber (Obj.get r "latitude") && isNumber (Obj.get r "longitude")
      || isNumber (Obj.get r "hpi")
      || isNumber (Obj.get r "hei")
      || isNumber (Obj.get r "cd")).

(** [normalizeResults(parsed).filter(...)], the list handed to
    [setResults]. *)
Definition rehydrate (parsed : list object) : list object :=
  List.filter keep (normalizeResults parsed).

End Results.

(** ** The specification's formulas *)

Module Spec.

(** Sigma over the metal list, accumulated from zero in list order. *)
Definition sum (f : string -> number) (metals : list string) : number :=
  foldl (fun acc metal => Num.add acc (f metal)) Num.zero metals.

(** concentration = parseNumber(sample[metal]) or 0 *)
Definition concentration (sample : object) (metal : string) : number :=
  orNumber (parseNumber (Obj.get sample metal)) (Fin 0).

(** limit = standards-table lookup or 1 *)
Definition limit (metal : string) : number :=
  orNumber (tableLookup WHO_STANDARDS metal) (Fin 1).

(** w = 1 / limit *)
Definition w (metal : string) : number := Num.div (Fin 1) (limit metal).

(** q = (concentration / limit) * 100 *)
Definition q (sample : object) (metal : string) : number :=
  Num.mul (Num.div (concentration sample metal) (limit metal)) (Fin 100).

(** HPI = Sigma(w q) / Sigma w, or 0 if the metal set is empty. *)
Definition HPI (sample : object) (metals : list string) : number :=
  match metals with
  | [] => Fin 0
  | _ => Num.div (sum (fun metal => Num.mul (w metal) (q sample metal)) metals)
                 (sum w metals)
  end.

(** The fixed metadata exclusion set. *)
Definition metadataKeys : list string :=
  ["id"; "latitude"; "longitude"; "lat"; "lon"; "lng"].

(** A column name is a metal column when, case-insensitively, it is not a
    metadata key. *)
Definition isMetalColumn (key : string) : bool :=
  negb (Str.includes metadataKeys (Str.toLowerCase key)).

(** The id of the result for the row at 0-based index [i]: the row's id
    converted to a string, or the positional placeholder when the row
    supplies none. *)
Definition expectedId (Number_toString : number -> string)
    (sample : object) (i : nat) : string :=
  match Obj.get sample "id" with
  | VUndefined | VNull => "Sample " ++ Str.ofNat (S i)
  | v => match String_ Number_toString v with
         | EmptyString => "Sample " ++ Str.ofNat (S i)
         | s => s
         end
  end.

(** parseNumber: absent for null, undefined and the empty string;
    otherwise the trimmed text read as a number, absent when that number is
    not usable.  The specification asks for a finite number; what counts as
    usable is a parameter. *)
Definition coerce (usable : number -> bool) (v : value) : option number :=
  match v with
  | VUndefined | VNull | VStr EmptyString => None
  | _ => if usable (numberOfText v) then Some (numberOfText v) else None
  end.

(** pickFirst: the first candidate key, in priority order, that is present
    in the record and whose value coerces. *)
Fixpoint pickFirst (usable : number -> bool) (record : object)
    (candidateKeys : list string) : option number :=
  match candidateKeys with
  | [] => None
  | key :: rest =>
      match Obj.lookup record key with
      | Some v =>
          match coerce usable v with
          | Some n => Some n
          | None => pickFirst usable record rest
          end
      | None => pickFirst usable record rest
      end
  end.

(** The first of the keys whose value is present (neither missing, nor
    null, nor undefined), else the fallback. *)
Fixpoint firstPresent (record : object) (keys : list string) (fallback : value)
  : value :=
  match keys with
  | [] => fallback
  | key :: rest =>
      match Obj.lookup record key with
      | Some v => if isNullish v then firstPresent record rest fallback else v
      | None => firstPresent record rest fallback
      end
  end.

(** The id of a stored record: the first present of id, sample_id,
    SampleID, Location, else the placeholder sample-(i+1). *)
Definition storedId (idx : nat) (r : object) : value :=
  firstPresent r ["id"; "sample_id"; "SampleID"; "Location"]
    (VStr ("sample-" ++ Str.ofNat (idx + 1))).

(** A non-empty id: a value that is there and is not the empty string. *)
Definition nonEmpty (v : value) : bool :=
  match v with
  | VUndefined | VNull | VStr EmptyString => false
  | _ => true
  end.

(** The survival predicate over a notion of non-empty id and of usable
    number: the id is non-empty and (both coordinates resolve, or one of
    hpi, hei, cd resolves). *)
Definition survivesWith (hasId : value -> bool) (usable : number -> bool)
    (idx : nat) (r : object) : Prop :=
  hasId (storedId idx r) = true
  /\ ((is_Some (pickFirst usable r Results.latKeys)
       /\ is_Some (pickFirst usable r Results.lonKeys))
      \/ is_Some (pickFirst usable r Results.hpiKeys)
      \/ is_Some (pickFirst usable r Results.heiKeys)
      \/ is_Some (pickFirst usable r Results.cdKeys)).

(** As the claim words it: a non-empty id, and valid (finite) numbers. *)
Definition survives (idx : nat) (r : object) : Prop :=
  survivesWith nonEmpty Num.isFinite idx r.

(** As the filter has it: an id that [Boolean] holds true, and numbers
    other than [NaN]. *)
Definition survivesFilter (idx : nat) (r : object) : Prop :=
  survivesWith ToBoolean (fun n => negb (Num.isNaN n)) idx r.

End Spec.

(** A text made of white space only. *)
Fixpoint allWhiteSpace (s : string) : bool :=
  match s with
  | String c s' => Str.isWhiteSpace c && allWhiteSpace s'
  | EmptyString => true
  end.

(** What a result says about pollution: the three indices, the category
    and the per-metal concentrations. *)
Definition indicesOf (r : CalculationResult)
  : number * number * number * Category * list (string * number) :=
  (hpi r, hei r, cd r, category r, metals r).

(** The numeric fields of a normalized record. *)
Definition numericFields (r : object) : value * value * value * value * value :=
  (Obj.get r "latitude", Obj.get r "longitude",
   Obj.get r "hpi", Obj.get r "hei", Obj.get r "cd").

(** A number printer for the examples: the decimal digits of an integer,
    which is what [Number.prototype.toString] prints for the integers met
    there. *)
Definition integerText (n : number) : string :=
  match n with
  | NaN => "NaN"
  | PInf => "Infinity"
  | NInf => "-Infinity"
  | Fin q => NilZero.string_of_int (Z.to_int (Qfloor q))
  end.

(** ** Upload page: schema validation and file routing
    (the [Upload] component that sits next to the calculations) *)

Module Upload.

Definition MAX_PREVIEW_ROWS : nat := 5.

(** 10MB *)
Definition MAX_FILE_SIZE : N := 10 * 1024 * 1024.

Definition requiredCoordinateFields : list string := ["latitude"; "lat"].
Definition requiredLongitudeFields : list string := ["longitude"; "lon"; "lng"].

Definition metalCandidates : list string :=
  ["cd"; "pb"; "cr"; "ni"; "as"; "cu"; "zn"; "hg"; "fe"; "mn"].

Definition noRowsError : string := "No rows found in the file.".
Definition noCoordinatesWarning : string :=
  "No latitude/longitude columns detected. Geo-visualization will be unavailable.".
Definition noMetalError : string :=
  "No metal concentration columns detected. Please include at least one metal column (e.g., Cd, Pb, Cr, Ni, As, Cu, Zn, Hg).".
Definition unparsedMetalError : string :=
  "Metal columns detected but could not be parsed correctly.".

(** [{ ok, errors, warnings }]; the early return for an empty file has no
    [warnings]. *)
Record ValidationResult : Type := mkValidation {
  ok : bool;
  errors : list string;
  warnings : option (list string)
}.

Definition validateSchema (rows : list object) : ValidationResult :=
  match rows with
  | [] => {| ok := false; errors := [noRowsError]; warnings := None |}
  | first :: _ =>
      let headers := Str.trim <$> Obj.keys first in
      let lowerHeaders := Str.toLowerCase <$> headers in
      let hasLat := existsb (Str.includes requiredCoordinateFields) lowerHeaders in
      let hasLon := existsb (Str.includes requiredLongitudeFields) lowerHeaders in
      let warnings :=
        if negb hasLat || negb hasLon then [noCoordinatesWarning] else [] in
      let hasMetal := existsb (Str.includes metalCandidates) lowerHeaders in
      let errors := if negb hasMetal then [noMetalError] else [] in
      let errors :=
        if hasMetal then
          let metalCols :=
            List.filter (fun k => Str.includes metalCandidates (Str.toLowerCase k))
                        (Obj.keys first) in
          if (length metalCols =? 0)%nat then (errors ++ [unparsedMetalError])%list
          else errors
        else errors in
      {| ok := (length errors =? 0)%nat; errors := errors; warnings := Some warnings |}
  end.

(** [s.split(sep)] for a one-character separator. *)
Fixpoint split (sep : ascii) (s : string) : list string :=
  match s with
  | EmptyString => [EmptyString]
  | String c s' =>
      if Ascii.eqb c sep then EmptyString :: split sep s'
      else match split sep s' with
           | h :: t => String c h :: t
           | [] => [String c EmptyString]
           end
  end.

(** [file.name.split(".").pop()?.toLowerCase()] *)
Definition fileExtension (name : string) : string :=
  Str.toLowerCase (List.last (split "." name) EmptyString).

(** What [processFile] does with a file before it reads it. *)
Inductive Route : Type :=
  | TooLarge
  | ParseCsv
  | ParseExcel
  | Unsupported.

Definition routeFile (size : N) (name : string) : Route :=
  if (MAX_FILE_SIZE <? size)%N then TooLarge
  else
    let fileExtension := fileExtension name in
    if String.eqb fileExtension "csv" then ParseCsv
    else if String.eqb fileExtension "xlsx" || String.eqb fileExtension "xls"
         then ParseExcel
         else Unsupported.

(** What [processFile] does with the rows it has read. *)
Inductive Outcome : Type :=
  | SchemaFailed (description : string)
  | Stored (results : list CalculationResult).

Definition processRows (Number_toString : number -> string)
    (data : list object) : Outcome :=
  let validation := validateSchema data in
  if negb (ok validation) then SchemaFailed (String.concat " " (errors validation))
  else Stored (processWaterSamples Number_toString data).

End Upload.

(** ** Handing the results over: [JSON.stringify] then [JSON.parse] *)

(** The three category strings. *)
Definition categoryName (c : Category) : string :=
  match c with
  | Safe => "Safe"
  | SlightlyPolluted => "Slightly Polluted"
  | Hazardous => "Hazardous"
  end.

(** A number through JSON: [NaN] and the infinities are written [null]. *)
Definition jsonNumber (n : number) : value :=
  if Num.isFinite n then VNum n else VNull.

(** An optional property through JSON: [undefined] is left out. *)
Definition jsonOptional (k : string) (x : option number) : object :=
  match x with
  | Some n => [(k, jsonNumber n)]
  | None => []
  end.

(** [JSON.parse(JSON.stringify(r))] for a result [r]. *)
Definition storedRecord (r : CalculationResult) : object :=
  ([("id", VStr (id r))]
   ++ jsonOptional "latitude" (latitude r)
   ++ jsonOptional "longitude" (longitude r)
   ++ [("hpi", jsonNumber (hpi r));
       ("hei", jsonNumber (hei r));
       ("cd", jsonNumber (cd r));
       ("category", VStr (categoryName (category r)));
       ("metals", VObj)])%list.

(** ** Results page: filters, pages, statistics and exports *)

Module ResultsPage.

Definition PAGE_SIZE : nat := 12.

(** [v === s] for a string [s]. *)
Definition isString (v : value) (s : string) : bool :=
  match v with VStr t => String.eqb t s | _ => false end.

(** [s.includes(q)] *)
Fixpoint includesText (s q : string) : bool :=
  String.prefix q s
  || match s with
     | String _ s' => includesText s' q
     | EmptyString => false
     end.

(** [l.slice(start, end)] for indices that are not negative. *)
Definition slice {A : Type} (start stop : nat) (l : list A) : list A :=
  take (stop - start) (drop start l).

(** [Math.ceil(n / d)] on lengths. *)
Definition ceilDiv (n d : nat) : nat := (n + (d - 1)) / d.

(** [Math.max(1, Math.ceil(filtered.length / PAGE_SIZE))] *)
Definition totalPages {A : Type} (filtered : list A) : nat :=
  Nat.max 1 (ceilDiv (length filtered) PAGE_SIZE).

(** [filtered.slice((page - 1) * PAGE_SIZE, page * PAGE_SIZE)] *)
Definition paged {A : Type} (page : nat) (filtered : list A) : list A :=
  slice ((page - 1) * PAGE_SIZE) (page * PAGE_SIZE) filtered.

(** [results.filter((r) => r.category === c).length] *)
Definition countCategory (c : string) (results : list object) : nat :=
  length (List.filter (fun r => isString (Obj.get r "category") c) results).

Section Filters.

Variable Number_toString : number -> string.

(** The callback of the search filter, for the query [q] already trimmed
    and lower-cased. *)
Definition matchesQuery (q : string) (r : object) : bool :=
  includesText (Str.toLowerCase (String_ Number_toString (Obj.get r "id"))) q
  || isNumber (Obj.get r "latitude")
     && includesText
          (Str.toLowerCase (String_ Number_toString (Obj.get r "latitude"))) q
  || isNumber (Obj.get r "longitude")
     && includesText
          (Str.toLowerCase (String_ Number_toString (Obj.get r "longitude"))) q.

(** The memoized [filtered] list. *)
Definition filtered (results : list object) (query : string)
    (categoryFilter : option string) : list object :=
  let list :=
    if negb (String.eqb (Str.trim query) "") then
      let q := Str.toLowerCase (Str.trim query) in
      List.filter (matchesQuery q) results
    else results in
  match categoryFilter with
  | Some c =>
      if negb (String.eqb c "") then
        List.filter (fun r => isString (Obj.get r "category") c) list
      else list
  | None => list
  end.

(** The state behind the table: the two filters and the page. *)
Record View : Type := mkView {
  query : string;
  categoryFilter : option string;
  page : nat
}.

Definition initialView : View :=
  {| query := ""; categoryFilter := None; page := 1 |}.

(** What the user can do to the table. *)
Inductive Event : Type :=
  | TypeQuery (text : string)
  | ClearQuery
  | SelectCategory (v : string)
  | ResetFilters
  | FirstPage
  | PrevPage
  | NextPage
  | LastPage.

Definition shown (results : list object) (st : View) : list object :=
  filtered results (query st) (categoryFilter st).

(** The event handlers. *)
Definition handle (results : list object) (st : View) (e : Event) : View :=
  match e with
  | TypeQuery text =>
      {| query := text; categoryFilter := categoryFilter st; page := 1 |}
  | ClearQuery =>
      {| query := ""; categoryFilter := categoryFilter st; page := page st |}
  | SelectCategory v =>
      {| query := query st;
         categoryFilter := if String.eqb v "" then None else Some v;
         page := 1 |}
  | ResetFilters => {| query := ""; categoryFilter := None; page := 1 |}
  | FirstPage =>
      {| query := query st; categoryFilter := categoryFilter st; page := 1 |}
  | PrevPage =>
      {| query := query st; categoryFilter := categoryFilter st;
         page := Nat.max 1 (page st - 1) |}
  | NextPage =>
      {| query := query st; categoryFilter := categoryFilter st;
         page := Nat.min (totalPages (shown results st)) (page st + 1) |}
  | LastPage =>
      {| query := query st; categoryFilter := categoryFilter st;
         page := totalPages (shown results st) |}
  end.

(** The views a user can reach. *)
Inductive reachable (results : list object) : View -> Prop :=
  | reachable_initial : reachable results initialView
  | reachable_handle (st : View) (e : Event) :
      reachable results st -> reachable results (handle results st e).

(** The double quote character. *)
Definition dquote : ascii := ascii_of_N 34.

(** [s.replace] of every double quote by two double quotes. *)
Fixpoint doubleQuotes (s : string) : string :=
  match s with
  | String c s' =>
      if Ascii.eqb c dquote then String dquote (String dquote (doubleQuotes s'))
      else String c (doubleQuotes s')
  | EmptyString => EmptyString
  end.

(** [s.includes(",")] *)
Fixpoint hasComma (s : string) : bool :=
  match s with
  | String c s' => Ascii.eqb c "," || hasComma s'
  | EmptyString => false
  end.

(** One cell of the CSV export. *)
Definition csvField (val : value) : string :=
  if isNullish val then EmptyString
  else
    let s := doubleQuotes (String_ Number_toString val) in
    if hasComma s then String dquote (s ++ String dquote EmptyString) else s.

Definition csvHeaders : list string :=
  ["id"; "latitude"; "longitude"; "hpi"; "hei"; "cd"; "category"].

(** The line feed that joins the lines. *)
Definition newline : string := String (ascii_of_N 10) EmptyString.

(** The text [exportToCSV] puts in the file; nothing is exported for an
    empty list. *)
Definition exportToCSV (rows : list object) : option string :=
  match rows with
  | [] => None
  | _ =>
      Some (String.concat newline
              (String.concat "," csvHeaders
               :: ((fun r =>
                      String.concat ","
                        ((fun h => csvField (Obj.get r h)) <$> csvHeaders))
                   <$> rows)))
  end.

End Filters.

(** A GeoJSON point feature. *)
Record Feature : Type := mkFeature {
  featureType : string;
  geometryType : string;
  coordinates : list value;
  properties : object
}.

(** The [features] of [exportToGeoJSON]. *)
Definition geoFeatures (rows : list object) : list Feature :=
  (fun r =>
     {| featureType := "Feature";
        geometryType := "Point";
        coordinates := [Obj.get r "longitude"; Obj.get r "latitude"];
        properties :=
          [("id", Obj.get r "id");
           ("hpi", Obj.get r "hpi");
           ("hei", Obj.get r "hei");
           ("cd", Obj.get r "cd");
           ("category", Obj.get r "category")] |})
  <$> List.filter
        (fun r => isNumber (Obj.get r "latitude") && isNumber (Obj.get r "longitude"))
        rows.

End ResultsPage.

(** ** Visualization page *)

Module Visualization.

(** [results.filter((r) => r.latitude && r.longitude)] *)
Definition samplesWithCoordinates (results : list object) : list object :=
  List.filter
    (fun r => ToBoolean (Obj.get r "latitude") && ToBoolean (Obj.get r "longitude"))
    results.

(** The pie chart: one slice per category that occurs. *)
Definition categoryData (results : list object) : list (string * nat) :=
  List.filter (fun d => (0 <? d.2)%nat)
    [("Safe", ResultsPage.countCategory "Safe" results);
     ("Slightly Polluted", ResultsPage.countCategory "Slightly Polluted" results);
     ("Hazardous", ResultsPage.countCategory "Hazardous" results)].

End Visualization.

(** The order of the categories, from best to worst. *)
Definition categoryRank (c : Category) : nat :=
  match c with
  | Safe => 0
  | SlightlyPolluted => 1
  | Hazardous => 2
  end.

(** [x >= 0] *)
Definition nonNegative (x : number) : bool := Num.geb x (Fin 0).

(** * Properties *)

(** ** Order on the rationals behind the comparisons *)

Lemma Qlt_bool_iff (a b : Q) : Num.Qlt_bool a b = true <-> (a < b)%Q.
Proof.
  unfold Num.Qlt_bool. rewrite negb_true_iff.
  split.
  - intros H. apply Qnot_le_lt. intros Hle.
    apply Qle_bool_iff in Hle. congruence.
  - intros H. destruct (Qle_bool b a) eqn:E; [|reflexivity].
    apply Qle_bool_iff in E. exfalso. apply (Qlt_not_le _ _ H E).
Qed.

Lemma Qlt_bool_false_iff (a b : Q) : Num.Qlt_bool a b = false <-> (b <= a)%Q.
Proof.
  unfold Num.Qlt_bool. rewrite negb_false_iff. apply Qle_bool_iff.
Qed.

Lemma Qeq_bool_false_of_pos (s : Q) : (0 < s)%Q -> Qeq_bool s 0 = false.
Proof.
  intros H. destruct (Qeq_bool s 0) eqn:E; [|reflexivity].
  apply Qeq_bool_iff in E. rewrite E in H. exfalso. apply (Qlt_irrefl _ H).
Qed.

(** ** Index calculator *)

(** C2: [calculateHEI] and [calculateCd] return the same number for every
    sample and every metal column list. *)
Theorem calculateHEI_eq_calculateCd (sample : object) (metals : list string) :
  calculateHEI sample metals = calculateCd sample metals.
Proof.
  unfold calculateHEI, calculateCd. reflexivity.
Qed.

(** C4: [categorizeWaterQuality] is Safe below 100, Slightly Polluted from
    100 (included) to 200 (excluded) and Hazardous from 200 (included) on;
    the boundary values 100 and 200 belong to the higher category. *)
Theorem categorizeWaterQuality_thresholds (hpi : number) :
  (Num.ltb hpi (Fin 100) = true -> categorizeWaterQuality hpi = Safe)
  /\ (Num.geb hpi (Fin 100) = true -> Num.ltb hpi (Fin 200) = true ->
      categorizeWaterQuality hpi = SlightlyPolluted)
  /\ (Num.geb hpi (Fin 200) = true -> categorizeWaterQuality hpi = Hazardous)
  /\ categorizeWaterQuality (Fin 100) = SlightlyPolluted
  /\ categorizeWaterQuality (Fin 200) = Hazardous.
Proof.
  unfold categorizeWaterQuality.
  repeat split; try reflexivity.
  - intros ->. reflexivity.
  - unfold Num.geb. intros Hge Hlt. rewrite Hlt.
    destruct hpi as [| | |x]; simpl in *; try discriminate.
    apply Qle_bool_iff in Hge.
    destruct (Num.Qlt_bool x 100) eqn:E; [|reflexivity].
    apply Qlt_bool_iff in E. lra.
  - unfold Num.geb. intros Hge.
    destruct hpi as [| | |x]; simpl in *; try discriminate; try reflexivity.
    apply Qle_bool_iff in Hge.
    destruct (Num.Qlt_bool x 100) eqn:E1.
    { apply Qlt_bool_iff in E1. lra. }
    destruct (Num.Qlt_bool x 200) eqn:E2; [|reflexivity].
    apply Qlt_bool_iff in E2. lra.
Qed.

Lemma categorizeWaterQuality_thresholds_witness :
  categorizeWaterQuality (Fin (99999 # 1000)) = Safe
  /\ categorizeWaterQuality (Fin (199999 # 1000)) = SlightlyPolluted
  /\ categorizeWaterQuality (Fin 200) = Hazardous.
Proof.
  split; [|split].
  - apply (proj1 (categorizeWaterQuality_thresholds (Fin (99999 # 1000)))).
    reflexivity.
  - apply (proj1 (proj2 (categorizeWaterQuality_thresholds (Fin (199999 # 1000)))));
      reflexivity.
  - apply (proj1 (proj2 (proj2 (categorizeWaterQuality_thresholds (Fin 200))))).
    reflexivity.
Defined.

(** Every limit of the standards table is a positive finite number. *)
Lemma tableLookup_WHO_positive (metal : string) (n : number) :
  tableLookup WHO_STANDARDS metal = Some n -> exists s, n = Fin s /\ (0 < s)%Q.
Proof.
  unfold WHO_STANDARDS. simpl.
  repeat match goal with
         | |- context [String.eqb metal ?k] =>
             destruct (String.eqb metal k);
             [ intros [= <-]; eexists; split; [reflexivity | reflexivity] | ]
         end.
  discriminate.
Qed.

Lemma Spec_limit_positive (metal : string) :
  exists s, Spec.limit metal = Fin s /\ (0 < s)%Q.
Proof.
  unfold Spec.limit.
  destruct (tableLookup WHO_STANDARDS metal) as [n|] eqn:E; simpl.
  - destruct (tableLookup_WHO_positive _ _ E) as (s & -> & Hs).
    simpl. rewrite (Qeq_bool_false_of_pos s Hs). simpl. eauto.
  - exists 1%Q. split; reflexivity.
Qed.

Lemma Spec_w_positive (metal : string) :
  exists t, Spec.w metal = Fin t /\ (0 < t)%Q.
Proof.
  unfold Spec.w. destruct (Spec_limit_positive metal) as (s & -> & Hs).
  unfold Num.div. rewrite (Qeq_bool_false_of_pos s Hs).
  exists (1 / s)%Q. split; [reflexivity|].
  unfold Qdiv. rewrite Qmult_1_l. apply Qinv_lt_0_compat, Hs.
Qed.

Lemma total_weight_positive (metals : list string) (b : Q) :
  (0 < b)%Q ->
  exists t, foldl (fun acc metal => Num.add acc (Spec.w metal)) (Fin b) metals
            = Fin t /\ (0 < t)%Q.
Proof.
  revert b. induction metals as [|metal rest IH]; intros b Hb; cbn [foldl].
  - eauto.
  - destruct (Spec_w_positive metal) as (t & -> & Hpos).
    cbn [Num.add]. apply IH. lra.
Qed.

(** C3, where the code departs from it: for the one-column list
    [constructor] and a cell of 5, the table of limits answers with the
    function every object inherits under that name, the weight and both
    sums of the loop are [NaN], and [calculateHPI] returns 0 for a
    non-empty list; with the limit 1 of a name absent from the table,
    Sigma(w q) / Sigma w is 500, and the quotient of the two sums of the
    loop is [NaN]: the result is neither. *)
Theorem calculateHPI_inherited_column :
  calculateHPI [("constructor", VStr "5")] ["constructor"] = Fin 0
  /\ Num.eqb (Spec.HPI [("constructor", VStr "5")] ["constructor"]) (Fin 500) = true
  /\ tableLookup WHO_STANDARDS "constructor" = None
  /\ standardOf "constructor" = NaN
  /\ foldl (hpiStep [("constructor", VStr "5")]) (Num.zero, Num.zero) ["constructor"]
     = (NaN, NaN)
  /\ Num.div NaN NaN = NaN.
Proof.
  repeat split; reflexivity.
Qed.

(** ** Numeric coercion *)

Lemma trimStart_allWhiteSpace (s : string) :
  allWhiteSpace s = true -> Str.trimStart s = "".
Proof.
  induction s as [|c s IH]; simpl; [reflexivity|].
  intros [Hc Hs]%andb_true_iff. rewrite Hc. auto.
Qed.

Lemma trim_allWhiteSpace (s : string) :
  allWhiteSpace s = true -> Str.trim s = "".
Proof.
  intros H. unfold Str.trim. rewrite (trimStart_allWhiteSpace s H). reflexivity.
Qed.

Lemma parseNumber_Some (v : value) (n : number) :
  parseNumber v = Some n -> n = numberOfText v /\ Num.isNaN n = false.
Proof.
  unfold parseNumber.
  destruct v as [| |b|m|s|]; try discriminate;
    try (destruct (Num.isNaN (numberOfText _)) eqn:E; [discriminate|];
         intros [= <-]; auto).
  destruct s as [|c s]; [discriminate|].
  destruct (Num.isNaN (numberOfText _)) eqn:E; [discriminate|].
  intros [= <-]; auto.
Qed.

(** C7, as the code has it: [parseNumber] is total; it returns absent for
    [undefined], [null] and the empty string; for any other value it
    returns [Number(String(v).trim())] unless that is [NaN], in which case
    it returns absent.  The infinities are numbers it returns. *)
Theorem parseNumber_absent_iff_NaN (v : value) :
  (v = VUndefined \/ v = VNull \/ v = VStr "" -> parseNumber v = None)
  /\ (v <> VUndefined -> v <> VNull -> v <> VStr "" ->
      parseNumber v
      = if Num.isNaN (numberOfText v) then None else Some (numberOfText v))
  /\ parseNumber (VStr "Infinity") = Some PInf
  /\ parseNumber (VStr "-Infinity") = Some NInf.
Proof.
  split; [|split; [|split; reflexivity]].
  - intros [-> | [-> | ->]]; reflexivity.
  - intros Hu Hn He.
    destruct v as [| |b|m|s|]; try congruence; try reflexivity.
    destruct s; [congruence | reflexivity].
Qed.

Lemma parseNumber_absent_iff_NaN_witness :
  parseNumber (VStr "trace") = None
  /\ parseNumber (VStr " 0.025 ") = Some (Fin (inject_Z 25 * Qpower 10 (-3)))
  /\ parseNumber (VStr "") = None.
Proof.
  split; [|split].
  - rewrite (proj1 (proj2 (parseNumber_absent_iff_NaN (VStr "trace"))));
      [reflexivity | discriminate..].
  - rewrite (proj1 (proj2 (parseNumber_absent_iff_NaN (VStr " 0.025 "))));
      [reflexivity | discriminate..].
  - apply (proj1 (parseNumber_absent_iff_NaN (VStr ""))). auto.
Defined.

(** C7 as stated fails: the text [Infinity] does not parse to a finite
    number, and [parseNumber] returns it instead of absent. *)
Lemma parseNumber_returns_infinity :
  ~ (Num.isFinite (numberOfText (VStr "Infinity")) = false ->
     parseNumber (VStr "Infinity") = None).
Proof.
  intros H. specialize (H eq_refl). discriminate H.
Qed.

(** C10: a non-empty text of white space only parses to the number 0, not
    to absent; so such a cell in a coordinate column yields the coordinate
    0 from [pickNumber] (when no earlier candidate key resolves), and such
    a metal cell contributes the concentration 0. *)
Theorem parseNumber_whitespace_is_zero (s : string) :
  s <> "" -> allWhiteSpace s = true ->
  parseNumber (VStr s) = Some (Fin 0)
  /\ (forall (sample : object) (before : list string) (key : string)
             (after : list string),
        Obj.lookup sample key = Some (VStr s) ->
        pickNumber sample before = None ->
        pickNumber sample (before ++ key :: after) = Some (Fin 0))
  /\ (forall (sample : object) (metal : string),
        Obj.lookup sample metal = Some (VStr s) ->
        concentrationOf sample metal = Fin 0).
Proof.
  intros Hne Hws.
  assert (parseNumber (VStr s) = Some (Fin 0)) as Hparse.
  { unfold parseNumber. destruct s as [|c s]; [congruence|].
    unfold numberOfText. rewrite (trim_allWhiteSpace _ Hws). reflexivity. }
  split; [exact Hparse|split].
  - intros sample before key after Hkey.
    induction before as [|k before IH]; intros Hnone.
    + cbn [app pickNumber]. unfold Obj.has, Obj.get. rewrite Hkey.
      change (default VUndefined (Some (VStr s))) with (VStr s).
      rewrite Hparse. reflexivity.
    + cbn [app pickNumber] in *. destruct (Obj.has sample k).
      * destruct (parseNumber (Obj.get sample k)); [discriminate|]. auto.
      * auto.
  - intros sample metal Hkey. unfold concentrationOf, Obj.get.
    rewrite Hkey. change (default VUndefined (Some (VStr s))) with (VStr s).
    rewrite Hparse. reflexivity.
Qed.

Lemma parseNumber_whitespace_is_zero_witness :
  parseNumber (VStr " ") = Some (Fin 0)
  /\ pickNumber [("id", VStr "S1"); ("lat", VStr " ")] ["latitude"; "Latitude"; "lat"]
     = Some (Fin 0)
  /\ concentrationOf [("id", VStr "S1"); ("Pb", VStr "  ")] "Pb" = Fin 0.
Proof.
  split; [|split].
  - apply (parseNumber_whitespace_is_zero " "); [discriminate | reflexivity].
  - apply (proj1 (proj2 (parseNumber_whitespace_is_zero " " ltac:(discriminate) eq_refl))
             [("id", VStr "S1"); ("lat", VStr " ")] ["latitude"; "Latitude"] "lat" []);
      reflexivity.
  - apply (proj2 (proj2 (parseNumber_whitespace_is_zero "  " ltac:(discriminate) eq_refl))
             [("id", VStr "S1"); ("Pb", VStr "  ")] "Pb").
    reflexivity.
Defined.

(** ** Batch processor *)

Section BatchProperties.

Variable Number_toString : number -> string.

Lemma sampleId_expected (sample : object) (i : nat) :
  sampleId Number_toString sample i = Spec.expectedId Number_toString sample i.
Proof.
  unfold sampleId, Spec.expectedId, toStringOpt, placeholderId.
  rewrite Nat.add_1_r.
  destruct (Obj.get sample "id") as [| |b|n|s|]; cbn [isNullish];
    try reflexivity;
    destruct (String_ Number_toString _) as [|c t]; reflexivity.
Qed.

Lemma expectedId_not_empty (sample : object) (i : nat) :
  Spec.expectedId Number_toString sample i <> "".
Proof.
  unfold Spec.expectedId.
  destruct (Obj.get sample "id") as [| |b|n|s|]; try discriminate;
    destruct (String_ Number_toString _) as [|c t]; discriminate.
Qed.

Lemma processWaterSamples_lookup (firstSample : object) (rest : list object)
    (i : nat) (sample : object) :
  (firstSample :: rest) !! i = Some sample ->
  processWaterSamples Number_toString (firstSample :: rest) !! i
  = Some (processSample Number_toString (detectMetalColumns firstSample) i sample).
Proof.
  intros H. unfold processWaterSamples.
  rewrite list_lookup_imap, H. reflexivity.
Qed.

(** C5: the empty input gives the empty output; otherwise there is one
    result per row, in row order, and the result for the row at index [i]
    carries a non-empty id: the row's id as a string or, when the row
    supplies none, the placeholder [Sample (i+1)]. *)
Theorem processWaterSamples_one_result_per_row :
  processWaterSamples Number_toString [] = []
  /\ (forall samples : list object,
        length (processWaterSamples Number_toString samples) = length samples)
  /\ (forall (samples : list object) (i : nat) (sample : object),
        samples !! i = Some sample ->
        exists (firstSample : object) (r : CalculationResult),
          samples !! 0 = Some firstSample
          /\ processWaterSamples Number_toString samples !! i = Some r
          /\ r = processSample Number_toString
                   (detectMetalColumns firstSample) i sample
          /\ id r <> ""
          /\ id r = Spec.expectedId Number_toString sample i).
Proof.
  split; [reflexivity|split].
  - intros [|firstSample rest]; [reflexivity|].
    unfold processWaterSamples. apply length_imap.
  - intros [|firstSample rest] i sample H; [discriminate|].
    exists firstSample, (processSample Number_toString
                           (detectMetalColumns firstSample) i sample).
    split; [reflexivity|].
    split; [apply processWaterSamples_lookup, H|].
    split; [reflexivity|].
    cbn [processSample id]. rewrite sampleId_expected.
    split; [apply expectedId_not_empty | reflexivity].
Qed.

End BatchProperties.

Example expectedId_text :
  Spec.expectedId integerText [("id", VStr "S1"); ("Pb", VStr "0.02")] 0 = "S1".
Proof. reflexivity. Qed.

Example expectedId_number :
  Spec.expectedId integerText [("id", VNum (Fin 7)); ("Pb", VStr "0.02")] 0 = "7".
Proof. reflexivity. Qed.

Example expectedId_placeholder :
  Spec.expectedId integerText [("Pb", VStr "0.02")] 11 = "Sample 12".
Proof. reflexivity. Qed.

Lemma processWaterSamples_one_result_per_row_witness :
  exists (firstSample : object) (r : CalculationResult),
    [[("id", VStr "S1"); ("Pb", VStr "0.02")]; [("id", VStr ""); ("Pb", VNum (Fin 3))]] !! 0
    = Some firstSample
    /\ processWaterSamples integerText
         [[("id", VStr "S1"); ("Pb", VStr "0.02")];
          [("id", VStr ""); ("Pb", VNum (Fin 3))]] !! 1 = Some r
    /\ r = processSample integerText (detectMetalColumns firstSample) 1
             [("id", VStr ""); ("Pb", VNum (Fin 3))]
    /\ id r <> ""
    /\ id r = Spec.expectedId integerText [("id", VStr ""); ("Pb", VNum (Fin 3))] 1.
Proof.
  apply (proj2 (proj2 (processWaterSamples_one_result_per_row integerText))
           [[("id", VStr "S1"); ("Pb", VStr "0.02")];
            [("id", VStr ""); ("Pb", VNum (Fin 3))]] 1).
  reflexivity.
Defined.

(** ** Schema inference *)

Lemma lookup_set (o : object) (k k' : string) (v : value) :
  Obj.lookup (Obj.set o k v) k'
  = if String.eqb k' k then Some v else Obj.lookup o k'.
Proof.
  induction o as [|[k0 v0] o IH]; cbn [Obj.set Obj.lookup].
  - reflexivity.
  - destruct (String.eqb k k0) eqn:E; cbn [Obj.lookup].
    + apply String.eqb_eq in E. subst k0.
      destruct (String.eqb k' k); reflexivity.
    + rewrite IH. destruct (String.eqb k' k0) eqn:E'; [|reflexivity].
      apply String.eqb_eq in E'. subst k0.
      rewrite String.eqb_sym, E. reflexivity.
Qed.

Lemma get_set_other (o : object) (k k' : string) (v : value) :
  k' <> k -> Obj.get (Obj.set o k v) k' = Obj.get o k'.
Proof.
  intros H. unfold Obj.get. rewrite lookup_set.
  apply String.eqb_neq in H. rewrite H. reflexivity.
Qed.

Lemma has_set_other (o : object) (k k' : string) (v : value) :
  k' <> k -> Obj.has (Obj.set o k v) k' = Obj.has o k'.
Proof.
  intros H. unfold Obj.has. rewrite lookup_set.
  apply String.eqb_neq in H. rewrite H. reflexivity.
Qed.

Lemma get_set_same (o : object) (k : string) (v : value) :
  Obj.get (Obj.set o k v) k = v.
Proof.
  unfold Obj.get. rewrite lookup_set, String.eqb_refl. reflexivity.
Qed.

Lemma has_set_same (o : object) (k : string) (v : value) :
  Obj.has (Obj.set o k v) k = true.
Proof.
  unfold Obj.has. rewrite lookup_set, String.eqb_refl. reflexivity.
Qed.

Lemma concentrationOf_set_other (sample : object) (k metal : string) (v : value) :
  metal <> k ->
  concentrationOf (Obj.set sample k v) metal = concentrationOf sample metal.
Proof.
  intros H. unfold concentrationOf. rewrite get_set_other by exact H. reflexivity.
Qed.

(** Two loop bodies that agree on the elements of a list compute the same
    fold. *)
Lemma foldl_agree {A B : Type} (f g : A -> B -> A) (l : list B) (a : A) :
  (forall x acc, In x l -> f acc x = g acc x) -> foldl f a l = foldl g a l.
Proof.
  revert a. induction l as [|x l IH]; intros a H; cbn [foldl].
  - reflexivity.
  - rewrite (H x a) by (left; reflexivity).
    apply IH. intros y acc Hy. apply H. right. exact Hy.
Qed.

(** The indices of a row do not depend on a column outside the metal set. *)
Lemma processSample_ignores_other_columns (Number_toString : number -> string)
    (metalColumns : list string) (i : nat) (sample : object)
    (key : string) (v : value) :
  ~ In key metalColumns ->
  indicesOf (processSample Number_toString metalColumns i (Obj.set sample key v))
  = indicesOf (processSample Number_toString metalColumns i sample).
Proof.
  intros Hkey.
  assert (forall metal, In metal metalColumns ->
            concentrationOf (Obj.set sample key v) metal
            = concentrationOf sample metal) as Hc.
  { intros metal Hin. apply concentrationOf_set_other.
    intros ->. exact (Hkey Hin). }
  assert (calculateHPI (Obj.set sample key v) metalColumns
          = calculateHPI sample metalColumns) as Hhpi.
  { unfold calculateHPI.
    rewrite (foldl_agree (hpiStep (Obj.set sample key v)) (hpiStep sample));
      [reflexivity|].
    intros metal acc Hin. unfold hpiStep.
    rewrite (Hc metal Hin). reflexivity. }
  assert (calculateHEI (Obj.set sample key v) metalColumns
          = calculateHEI sample metalColumns) as Hhei.
  { unfold calculateHEI. apply foldl_agree. intros metal acc Hin.
    cbv zeta. rewrite (Hc metal Hin). reflexivity. }
  assert (collectMetals (Obj.set sample key v) metalColumns
          = collectMetals sample metalColumns) as Hm.
  { unfold collectMetals. apply foldl_agree. intros metal acc Hin.
    rewrite (Hc metal Hin). reflexivity. }
  unfold indicesOf, processSample. cbn [hpi hei cd category metals].
  change (calculateCd ?s ?m) with (calculateHEI s m).
  rewrite Hhpi, Hhei, Hm. reflexivity.
Qed.

Lemma includes_exclude (s : string) :
  Str.includes exclude s = Str.includes Spec.metadataKeys s.
Proof.
  change exclude
    with ["id"; "latitude"; "longitude"; "lat"; "lon"; "lng";
          "latitude"; "longitude"].
  unfold Str.includes, Spec.metadataKeys. cbn [existsb].
  destruct (String.eqb s "id"), (String.eqb s "latitude"),
    (String.eqb s "longitude"), (String.eqb s "lat"),
    (String.eqb s "lon"), (String.eqb s "lng"); reflexivity.
Qed.

Lemma detectMetalColumns_In (firstSample : object) (key : string) :
  In key (detectMetalColumns firstSample)
  <-> In key (Obj.keys firstSample) /\ Spec.isMetalColumn key = true.
Proof.
  unfold detectMetalColumns, Spec.isMetalColumn.
  rewrite filter_In, includes_exclude. reflexivity.
Qed.

(** C6: the metal column set is computed once, from the keys of the first
    row, by excluding case-insensitively the metadata keys id, latitude,
    longitude, lat, lon, lng; it is applied unchanged to every row; a
    column absent from the first row contributes nothing to any row, also
    to a row that carries a value for it. *)
Theorem metal_columns_fixed_by_first_row (Number_toString : number -> string)
    (firstSample : object) (rest : list object) :
  (forall key : string,
      In key (detectMetalColumns firstSample)
      <-> In key (Obj.keys firstSample) /\ Spec.isMetalColumn key = true)
  /\ processWaterSamples Number_toString (firstSample :: rest)
     = imap (processSample Number_toString (detectMetalColumns firstSample))
            (firstSample :: rest)
  /\ (forall (i : nat) (sample : object) (key : string) (v : value),
        ~ In key (Obj.keys firstSample) ->
        rest !! i = Some sample ->
        indicesOf <$> processWaterSamples Number_toString
                        (firstSample :: <[i := Obj.set sample key v]> rest)
        = indicesOf <$> processWaterSamples Number_toString (firstSample :: rest)).
Proof.
  split; [intros key; apply detectMetalColumns_In|].
  split; [reflexivity|].
  intros i sample key v Hkey Hi.
  assert (~ In key (detectMetalColumns firstSample)) as Hnot.
  { intros Hin. apply detectMetalColumns_In in Hin. tauto. }
  apply list_eq. intros j.
  rewrite !list_lookup_fmap. unfold processWaterSamples.
  rewrite !list_lookup_imap.
  destruct j as [|j]; [reflexivity|].
  rewrite !(lookup_cons_ne_0 _ _ (S j)) by discriminate. cbn [pred].
  destruct (decide (i = j)) as [->|Hne].
  - rewrite list_lookup_insert_eq by (eapply lookup_lt_Some; exact Hi).
    rewrite Hi. cbn [fmap option_fmap option_map]. f_equal.
    apply processSample_ignores_other_columns, Hnot.
  - rewrite list_lookup_insert_ne by exact Hne. reflexivity.
Qed.

Example detectMetalColumns_scenario :
  detectMetalColumns
    [("id", VStr "S1"); ("Latitude", VStr "28.7"); ("LNG", VStr "77.1");
     ("Pb", VStr "0.02"); ("Cd", VStr "0.01")]
  = ["Pb"; "Cd"].
Proof. reflexivity. Qed.

Lemma metal_columns_fixed_by_first_row_witness :
  indicesOf <$> processWaterSamples integerText
                  [[("id", VStr "S1"); ("Pb", VStr "0.02")];
                   [("id", VStr "S2"); ("Pb", VStr "0.03"); ("Cd", VStr "0.01")]]
  = indicesOf <$> processWaterSamples integerText
                    [[("id", VStr "S1"); ("Pb", VStr "0.02")];
                     [("id", VStr "S2"); ("Pb", VStr "0.03")]].
Proof.
  apply (proj2 (proj2 (metal_columns_fixed_by_first_row integerText
                         [("id", VStr "S1"); ("Pb", VStr "0.02")]
                         [[("id", VStr "S2"); ("Pb", VStr "0.03")]]))
           0%nat [("id", VStr "S2"); ("Pb", VStr "0.03")] "Cd" (VStr "0.01")).
  - cbn. intros [H | [H | []]]; discriminate H.
  - reflexivity.
Defined.

(** ** Category and stored index *)

(** C1, as the code has it: the category of every result is the
    categorization of the row's HPI before rounding, and the stored [hpi]
    is that HPI rounded to two decimals. *)
Theorem category_of_unrounded_hpi (Number_toString : number -> string)
    (samples : list object) (i : nat) (r : CalculationResult) :
  processWaterSamples Number_toString samples !! i = Some r ->
  exists (firstSample sample : object),
    samples !! 0 = Some firstSample
    /\ samples !! i = Some sample
    /\ category r
       = categorizeWaterQuality
           (calculateHPI sample (detectMetalColumns firstSample))
    /\ hpi r = round2 (calculateHPI sample (detectMetalColumns firstSample)).
Proof.
  destruct samples as [|firstSample rest]; [discriminate|].
  unfold processWaterSamples. rewrite list_lookup_imap.
  destruct ((firstSample :: rest) !! i) as [sample|] eqn:E; [|discriminate].
  intros [= <-]. exists firstSample, sample. repeat split; reflexivity.
Qed.

Lemma category_of_unrounded_hpi_witness :
  exists (firstSample sample : object),
    [[("id", VStr "S1"); ("Cd", VStr "0.002"); ("Pb", VStr "0.025")]] !! 0
    = Some firstSample
    /\ [[("id", VStr "S1"); ("Cd", VStr "0.002"); ("Pb", VStr "0.025")]] !! 0
       = Some sample
    /\ category
         (processSample integerText ["Cd"; "Pb"] 0
            [("id", VStr "S1"); ("Cd", VStr "0.002"); ("Pb", VStr "0.025")])
       = categorizeWaterQuality
           (calculateHPI sample (detectMetalColumns firstSample))
    /\ hpi
         (processSample integerText ["Cd"; "Pb"] 0
            [("id", VStr "S1"); ("Cd", VStr "0.002"); ("Pb", VStr "0.025")])
       = round2 (calculateHPI sample (detectMetalColumns firstSample)).
Proof.
  apply (category_of_unrounded_hpi integerText
           [[("id", VStr "S1"); ("Cd", VStr "0.002"); ("Pb", VStr "0.025")]] 0).
  reflexivity.
Defined.

(** C1 as stated fails: a lead concentration of 0.0099999 mg/L gives the
    HPI 99.999, categorized Safe, and the stored [hpi] 100, whose
    categorization is Slightly Polluted. *)
Lemma category_differs_from_stored_hpi :
  exists r : CalculationResult,
    processWaterSamples integerText
      [[("id", VStr "S1"); ("Pb", VStr "0.0099999")]] !! 0 = Some r
    /\ category r = Safe
    /\ categorizeWaterQuality (hpi r) = SlightlyPolluted
    /\ category r <> categorizeWaterQuality (hpi r).
Proof.
  eexists. split; [reflexivity|].
  split; [vm_compute; reflexivity|].
  split; [vm_compute; reflexivity|].
  vm_compute. discriminate.
Qed.

(** ** Result rehydrator *)

Lemma pickNumericAlt_pickNumber (obj : object) (keys : list string) :
  Results.pickNumericAlt obj keys = Results.pickNumber obj keys.
Proof.
  induction keys as [|k rest IH]; cbn [Results.pickNumericAlt Results.pickNumber].
  - reflexivity.
  - rewrite IH. reflexivity.
Qed.

Lemma pickNumber_not_NaN (obj : object) (keys : list string) (n : number) :
  Results.pickNumber obj keys = Some n -> Num.isNaN n = false.
Proof.
  induction keys as [|k rest IH]; cbn [Results.pickNumber]; [discriminate|].
  destruct (Obj.has obj k); [|exact IH].
  destruct (Results.isBlank (Obj.get obj k)); [exact IH|].
  destruct (Num.isNaN (numberOfText (Obj.get obj k))) eqn:E; cbn [negb];
    [exact IH|].
  intros [= <-]. exact E.
Qed.

Lemma pickNumber_cons_None (obj : object) (k : string) (rest : list string) :
  Results.pickNumber obj (k :: rest) = None -> Results.pickNumber obj rest = None.
Proof.
  cbn [Results.pickNumber].
  destruct (Obj.has obj k); [|auto].
  destruct (Results.isBlank (Obj.get obj k)); [auto|].
  destruct (negb (Num.isNaN (numberOfText (Obj.get obj k)))); [discriminate|auto].
Qed.

(** Two objects that agree on the candidate keys resolve to the same
    number. *)
Lemma pickNumber_agree (o o' : object) (keys : list string) :
  Forall (fun k => Obj.has o' k = Obj.has o k /\ Obj.get o' k = Obj.get o k) keys ->
  Results.pickNumber o' keys = Results.pickNumber o keys.
Proof.
  induction 1 as [|k rest [Hh Hg] _ IH]; cbn [Results.pickNumber].
  - reflexivity.
  - rewrite Hh, Hg, IH. reflexivity.
Qed.

(** Resolving again from an object whose first candidate key holds the
    number resolved before (or [null]) and whose other candidate keys are
    untouched gives the same answer. *)
Lemma pickNumber_again (o o' : object) (k0 : string) (rest : list string) :
  Obj.has o' k0 = true ->
  Obj.get o' k0 = Results.nullable (Results.pickNumber o (k0 :: rest)) ->
  Forall (fun k => Obj.has o' k = Obj.has o k /\ Obj.get o' k = Obj.get o k) rest ->
  Results.pickNumber o' (k0 :: rest) = Results.pickNumber o (k0 :: rest).
Proof.
  intros Hhas Hget Hrest.
  destruct (Results.pickNumber o (k0 :: rest)) as [n|] eqn:E.
  - cbn [Results.pickNumber]. rewrite Hhas, Hget.
    cbn [Results.nullable Results.isBlank numberOfText].
    rewrite (pickNumber_not_NaN _ _ _ E). reflexivity.
  - cbn [Results.pickNumber]. rewrite Hhas, Hget.
    cbn [Results.nullable Results.isBlank].
    rewrite (pickNumber_agree o o' rest Hrest).
    apply pickNumber_cons_None with (k := k0). exact E.
Qed.

Ltac other_key := repeat rewrite get_set_other by discriminate.
Ltac other_has := repeat rewrite has_set_other by discriminate.

(** The fields written by the object literal of [normalizeResults]. *)
Lemma normalizeRecord_fields (idx : nat) (r : object) :
  let r' := Results.normalizeRecord idx r in
  Obj.get r' "id" = Results.resolveId idx r
  /\ Obj.get r' "latitude" = Results.nullable (Results.pickNumber r Results.latKeys)
  /\ Obj.get r' "longitude" = Results.nullable (Results.pickNumber r Results.lonKeys)
  /\ Obj.get r' "hpi" = Results.nullable (Results.pickNumericAlt r Results.hpiKeys)
  /\ Obj.get r' "hei" = Results.nullable (Results.pickNumericAlt r Results.heiKeys)
  /\ Obj.get r' "cd" = Results.nullable (Results.pickNumericAlt r Results.cdKeys)
  /\ Obj.get r' "category" = Results.resolveCategory r.
Proof.
  cbv zeta. unfold Results.normalizeRecord.
  repeat split; other_key; apply get_set_same.
Qed.

Lemma normalizeRecord_has (idx : nat) (r : object) :
  let r' := Results.normalizeRecord idx r in
  Obj.has r' "latitude" = true /\ Obj.has r' "longitude" = true
  /\ Obj.has r' "hpi" = true /\ Obj.has r' "hei" = true /\ Obj.has r' "cd" = true.
Proof.
  cbv zeta. unfold Results.normalizeRecord.
  repeat split; other_has; apply has_set_same.
Qed.

(** The original fields are retained next to the resolved ones. *)
Lemma normalizeRecord_retains (idx : nat) (r : object) (k : string) :
  ~ In k ["id"; "latitude"; "longitude"; "hpi"; "hei"; "cd"; "category"] ->
  Obj.has (Results.normalizeRecord idx r) k = Obj.has r k
  /\ Obj.get (Results.normalizeRecord idx r) k = Obj.get r k.
Proof.
  intros H. unfold Results.normalizeRecord.
  assert (k <> "id" /\ k <> "latitude" /\ k <> "longitude" /\ k <> "hpi"
          /\ k <> "hei" /\ k <> "cd" /\ k <> "category")
    as (H1 & H2 & H3 & H4 & H5 & H6 & H7).
  { repeat split; intros ->; apply H; cbn; tauto. }
  split.
  - rewrite !has_set_other by assumption. reflexivity.
  - rewrite !get_set_other by assumption. reflexivity.
Qed.

Lemma isNumber_nullable (x : option number) :
  isNumber (Results.nullable x) = true <-> is_Some x.
Proof.
  destruct x as [n|]; cbn.
  - split; [eauto | reflexivity].
  - split; [discriminate | intros [n Hn]; discriminate].
Qed.

(** For a string id, having something to show is being non-empty. *)
Lemma ToBoolean_string (s : string) : ToBoolean (VStr s) = true <-> s <> "".
Proof.
  cbn. rewrite negb_true_iff. apply String.eqb_neq.
Qed.

(** The two pickers of the page are pickFirst with every number other
    than [NaN] taken as usable. *)
Lemma pickNumber_pickFirst (r : object) (keys : list string) :
  Results.pickNumber r keys
  = Spec.pickFirst (fun n => negb (Num.isNaN n)) r keys.
Proof.
  induction keys as [|k rest IH]; cbn [Results.pickNumber Spec.pickFirst];
    [reflexivity|].
  unfold Obj.has, Obj.get. rewrite IH.
  destruct (Obj.lookup r k) as [v|]; [|reflexivity].
  change (default VUndefined (Some v)) with v.
  destruct v as [| |b|n|s|]; try reflexivity;
    try (unfold Spec.coerce; cbn [Results.isBlank];
         destruct (negb (Num.isNaN (numberOfText _))); reflexivity).
  destruct s as [|c s]; [reflexivity|].
  unfold Spec.coerce. cbn [Results.isBlank].
  destruct (negb (Num.isNaN (numberOfText _))); reflexivity.
Qed.

Lemma coalesce_lookup (r : object) (k : string) (b : value) :
  coalesce (Obj.get r k) b
  = match Obj.lookup r k with
    | Some v => if isNullish v then b else v
    | None => b
    end.
Proof.
  unfold coalesce, Obj.get. destruct (Obj.lookup r k) as [v|]; reflexivity.
Qed.

Lemma coalesce_assoc (a b c : value) :
  coalesce (coalesce a b) c = coalesce a (coalesce b c).
Proof.
  unfold coalesce. destruct (isNullish a) eqn:Ea; [reflexivity|].
  rewrite Ea. reflexivity.
Qed.

(** The chain of [??] is the first present of the four id fields. *)
Lemma resolveId_storedId (idx : nat) (r : object) :
  Results.resolveId idx r = Spec.storedId idx r.
Proof.
  unfold Results.resolveId, Spec.storedId.
  rewrite !coalesce_assoc, !coalesce_lookup. reflexivity.
Qed.

Lemma keep_normalizeRecord (idx : nat) (r : object) :
  Results.keep (Results.normalizeRecord idx r) = true <-> Spec.survivesFilter idx r.
Proof.
  unfold Results.keep, Spec.survivesFilter, Spec.survivesWith.
  destruct (normalizeRecord_fields idx r) as (-> & -> & -> & -> & -> & -> & _).
  change Results.pickNumericAlt with Results.pickNumber.
  rewrite (pickNumber_pickFirst r Results.latKeys),
    (pickNumber_pickFirst r Results.lonKeys),
    (pickNumber_pickFirst r Results.hpiKeys),
    (pickNumber_pickFirst r Results.heiKeys),
    (pickNumber_pickFirst r Results.cdKeys), resolveId_storedId.
  rewrite andb_true_iff, !orb_true_iff, andb_true_iff, !isNumber_nullable.
  tauto.
Qed.

(** C8, as the code has it: a stored record survives the filter applied
    after normalization exactly when [Boolean] holds its resolved id true
    (for a string id: when it is not empty; the ids 0 and false are not
    held true) and either both coordinates resolve to numbers or one of
    hpi, hei, cd does, a value resolving to a number when its parse is not
    [NaN], so that an infinite value counts; the other records are left out
    of the returned list, which is all the filter does with them. *)
Theorem rehydrate_keeps_iff_survives (parsed : list object) :
  (forall (idx : nat) (r : object),
      Results.keep (Results.normalizeRecord idx r) = true
      <-> Spec.survivesFilter idx r)
  /\ (forall r' : object,
        In r' (Results.rehydrate parsed)
        <-> exists (idx : nat) (r : object),
              parsed !! idx = Some r
              /\ r' = Results.normalizeRecord idx r
              /\ Spec.survivesFilter idx r)
  /\ (forall s : string, ToBoolean (VStr s) = true <-> s <> "").
Proof.
  split; [exact keep_normalizeRecord|].
  split; [|exact ToBoolean_string].
  intros r'. unfold Results.rehydrate, Results.normalizeResults.
  rewrite filter_In, <- list_elem_of_In, elem_of_lookup_imap.
  split.
  - intros [(idx & r & -> & Hr) Hkeep].
    exists idx, r. rewrite <- keep_normalizeRecord. auto.
  - intros (idx & r & Hr & -> & Hs).
    rewrite keep_normalizeRecord. eauto.
Qed.

Ltac no_number :=
  match goal with
  | H : is_Some _ |- _ => destruct H as [? H]; discriminate H
  end.

(** C8 as stated fails both ways: the record with id a and hpi Infinity has
    no valid number and no coordinates, and survives; the record with the
    id 0 and hpi 12 has an id that is not empty and a valid hpi, and is
    dropped. *)
Lemma rehydrate_departs_from_survives :
  ~ (Results.keep
       (Results.normalizeRecord 0 [("id", VStr "a"); ("hpi", VStr "Infinity")]) = true
     <-> Spec.survives 0 [("id", VStr "a"); ("hpi", VStr "Infinity")])
  /\ ~ (Results.keep
          (Results.normalizeRecord 0 [("id", VNum (Fin 0)); ("hpi", VNum (Fin 12))]) = true
        <-> Spec.survives 0 [("id", VNum (Fin 0)); ("hpi", VNum (Fin 12))]).
Proof.
  split.
  - intros [Hkeep _]. specialize (Hkeep eq_refl).
    destruct Hkeep as [_ [[Hlat _] | [H | [H | H]]]]; no_number.
  - intros [_ Hsurv].
    assert (Spec.survives 0 [("id", VNum (Fin 0)); ("hpi", VNum (Fin 12))]) as H.
    { split; [reflexivity|]. right. left. eexists. reflexivity. }
    specialize (Hsurv H). discriminate Hsurv.
Qed.

Example rehydrate_scenario :
  Results.rehydrate
    [ [("Location", VStr "Well 4"); ("HPI", VStr "109.0"); ("status", VStr "Slightly Polluted")];
      [("id", VStr ""); ("hpi", VNum (Fin 12))];
      [("note", VStr "no data")];
      [("lat", VStr "28.7"); ("Lng", VNum (Fin 77))] ]
  = [ Results.normalizeRecord 0
        [("Location", VStr "Well 4"); ("HPI", VStr "109.0"); ("status", VStr "Slightly Polluted")];
      Results.normalizeRecord 3 [("lat", VStr "28.7"); ("Lng", VNum (Fin 77))] ].
Proof. reflexivity. Qed.

Lemma pickNumber_normalizeRecord (idx : nat) (r : object)
    (k0 : string) (rest : list string) :
  Obj.has (Results.normalizeRecord idx r) k0 = true ->
  Obj.get (Results.normalizeRecord idx r) k0
  = Results.nullable (Results.pickNumber r (k0 :: rest)) ->
  Forall (fun k => ~ In k ["id"; "latitude"; "longitude"; "hpi"; "hei"; "cd"; "category"])
         rest ->
  Results.pickNumber (Results.normalizeRecord idx r) (k0 :: rest)
  = Results.pickNumber r (k0 :: rest).
Proof.
  intros Hhas Hget Hrest. apply pickNumber_again; [exact Hhas | exact Hget |].
  eapply Forall_impl; [exact Hrest|].
  intros k Hk. apply normalizeRecord_retains, Hk.
Qed.

Ltac fresh_keys :=
  repeat constructor; cbn;
  intros H; repeat (destruct H as [H | H]; [discriminate H|]); exact H.

(** Normalizing a normalized record resolves the same five numbers. *)
Lemma normalizeRecord_resolves_again (i : nat) (r : object) :
  let r' := Results.normalizeRecord i r in
  Results.pickNumber r' Results.latKeys = Results.pickNumber r Results.latKeys
  /\ Results.pickNumber r' Results.lonKeys = Results.pickNumber r Results.lonKeys
  /\ Results.pickNumericAlt r' Results.hpiKeys = Results.pickNumericAlt r Results.hpiKeys
  /\ Results.pickNumericAlt r' Results.heiKeys = Results.pickNumericAlt r Results.heiKeys
  /\ Results.pickNumericAlt r' Results.cdKeys = Results.pickNumericAlt r Results.cdKeys.
Proof.
  cbv zeta.
  destruct (normalizeRecord_fields i r) as (_ & Glat & Glon & Ghpi & Ghei & Gcd & _).
  destruct (normalizeRecord_has i r) as (Hlat & Hlon & Hhpi & Hhei & Hcd).
  rewrite !pickNumericAlt_pickNumber in *.
  repeat split;
    (apply pickNumber_normalizeRecord; [assumption | assumption | fresh_keys]).
Qed.

(** C9: rehydration is idempotent on the numeric fields: normalizing the
    output of [normalizeResults] again yields records with the same
    latitude, longitude, hpi, hei and cd. *)
Theorem normalizeResults_idempotent (raw : list object) :
  numericFields <$> Results.normalizeResults (Results.normalizeResults raw)
  = numericFields <$> Results.normalizeResults raw.
Proof.
  unfold Results.normalizeResults.
  apply list_eq. intros i.
  rewrite !list_lookup_fmap, !list_lookup_imap.
  destruct (raw !! i) as [r|]; [|reflexivity].
  cbn [fmap option_fmap option_map]. f_equal.
  unfold numericFields.
  destruct (normalizeRecord_fields i (Results.normalizeRecord i r))
    as (_ & -> & -> & -> & -> & -> & _).
  destruct (normalizeRecord_fields i r) as (_ & -> & -> & -> & -> & -> & _).
  destruct (normalizeRecord_resolves_again i r) as (-> & -> & -> & -> & ->).
  reflexivity.
Qed.

Example normalizeResults_twice :
  numericFields
    (Results.normalizeRecord 0
       (Results.normalizeRecord 0
          [("latitude", VStr "north"); ("lat", VStr "28.7"); ("Lon", VStr "77.1");
           ("HPI", VStr "109.0"); ("cd", VStr "")]))
  = (VNum (Fin (inject_Z 287 * Qpower 10 (-1))),
     VNum (Fin (inject_Z 771 * Qpower 10 (-1))),
     VNum (Fin (inject_Z 1090 * Qpower 10 (-1))), VNull, VNull).
Proof. reflexivity. Qed.

(** ** How far rounding can move the category *)

Lemma round2_Fin (q : Q) :
  round2 (Fin q) = Fin (inject_Z (Qfloor (q * 100 + (1 # 2))) / 100).
Proof. reflexivity. Qed.

Lemma floor_at_least (x : Q) (n : Z) :
  (inject_Z n <= x)%Q -> (inject_Z n <= inject_Z (Qfloor x))%Q.
Proof.
  intros H. rewrite <- Zle_Qle.
  rewrite <- (Qfloor_Z n).
  apply Qfloor_resp_le, H.
Qed.

Lemma div100_lt (z c : Q) : (z < c * 100)%Q -> (z / 100 < c)%Q.
Proof. intros H. apply Qlt_shift_div_r; [reflexivity | exact H]. Qed.

Lemma div100_ge (z c : Q) : (c * 100 <= z)%Q -> (c <= z / 100)%Q.
Proof. intros H. apply Qle_shift_div_l; [reflexivity | exact H]. Qed.

(** With exact arithmetic, the category of the stored [hpi] is the
    category of the result unless the HPI before rounding lies less than
    0.005 below one of the two thresholds. *)
Lemma categorize_round2 (q : Q) :
  ~ (99995 # 1000 <= q < 100)%Q -> ~ (199995 # 1000 <= q < 200)%Q ->
  categorizeWaterQuality (round2 (Fin q)) = categorizeWaterQuality (Fin q).
Proof.
  intros H100 H200. rewrite round2_Fin.
  set (x := (q * 100 + (1 # 2))%Q).
  assert (inject_Z (Qfloor x) <= x)%Q as Hlo by apply Qfloor_le.
  unfold categorizeWaterQuality, Num.ltb.
  destruct (Num.Qlt_bool q 100) eqn:E1.
  - apply Qlt_bool_iff in E1.
    assert (q < 99995 # 1000)%Q as Hq by (apply Qnot_le_lt; intros ?; apply H100; auto).
    assert (Num.Qlt_bool (inject_Z (Qfloor x) / 100) 100 = true) as ->; [|reflexivity].
    apply Qlt_bool_iff, div100_lt. subst x. lra.
  - apply Qlt_bool_false_iff in E1.
    assert (inject_Z 10000 <= inject_Z (Qfloor x))%Q as Hge.
    { apply floor_at_least. subst x. change (inject_Z 10000) with 10000%Q. lra. }
    change (inject_Z 10000) with 10000%Q in Hge.
    assert (Num.Qlt_bool (inject_Z (Qfloor x) / 100) 100 = false) as ->.
    { apply Qlt_bool_false_iff, div100_ge. lra. }
    destruct (Num.Qlt_bool q 200) eqn:E2.
    + apply Qlt_bool_iff in E2.
      assert (q < 199995 # 1000)%Q as Hq
          by (apply Qnot_le_lt; intros ?; apply H200; auto).
      assert (Num.Qlt_bool (inject_Z (Qfloor x) / 100) 200 = true) as ->;
        [|reflexivity].
      apply Qlt_bool_iff, div100_lt. subst x. lra.
    + apply Qlt_bool_false_iff in E2.
      assert (inject_Z 20000 <= inject_Z (Qfloor x))%Q as Hge2.
      { apply floor_at_least. subst x. change (inject_Z 20000) with 20000%Q. lra. }
      change (inject_Z 20000) with 20000%Q in Hge2.
      assert (Num.Qlt_bool (inject_Z (Qfloor x) / 100) 200 = false) as ->;
        [|reflexivity].
      apply Qlt_bool_false_iff, div100_ge. lra.
Qed.

Lemma categorize_round2_special (x : number) :
  Num.isFinite x = false ->
  categorizeWaterQuality (round2 x) = categorizeWaterQuality x.
Proof.
  destruct x; [reflexivity.. | discriminate].
Qed.

(** With exact arithmetic, a result's category is the categorization of its
    stored [hpi] as soon as the row's HPI is not within 0.005 below a
    threshold. *)
Lemma category_matches_stored_hpi_off_threshold
    (Number_toString : number -> string) (firstSample : object)
    (rest : list object) (i : nat) (sample : object) (r : CalculationResult) :
  (firstSample :: rest) !! i = Some sample ->
  processWaterSamples Number_toString (firstSample :: rest) !! i = Some r ->
  (forall q : Q,
      calculateHPI sample (detectMetalColumns firstSample) = Fin q ->
      ~ (99995 # 1000 <= q < 100)%Q /\ ~ (199995 # 1000 <= q < 200)%Q) ->
  category r = categorizeWaterQuality (hpi r).
Proof.
  intros Hrow Hr Hoff.
  unfold processWaterSamples in Hr. rewrite list_lookup_imap, Hrow in Hr.
  injection Hr as <-. cbn [processSample category hpi].
  destruct (calculateHPI sample (detectMetalColumns firstSample)) as [| | |q] eqn:E;
    try (symmetry; apply categorize_round2_special; reflexivity).
  destruct (Hoff q eq_refl) as [H100 H200].
  symmetry. apply categorize_round2; assumption.
Qed.

(** ** The scenarios of the specification *)

Example scenario_S1 :
  let r := processSample integerText ["Cd"; "Pb"] 0
             [("id", VStr "S1"); ("Cd", VStr "0.002"); ("Pb", VStr "0.025")] in
  id r = "S1"
  /\ Num.eqb (hei r) (Fin (317 # 100)) = true
  /\ Num.eqb (cd r) (Fin (317 # 100)) = true
  /\ Num.eqb (hpi r) (Fin (10897 # 100)) = true
  /\ category r = SlightlyPolluted
  /\ latitude r = None.
Proof. vm_compute. repeat split. Qed.

Example scenario_frozen_schema :
  (fun r => (id r, metals r)) <$>
    processWaterSamples integerText
      [[("id", VStr "S1"); ("Pb", VStr "0.02")];
       [("id", VStr "S2"); ("Pb", VStr "trace"); ("Cd", VStr "0.01")]]
  = [("S1", [("Pb", Fin (inject_Z 2 * Qpower 10 (-2)))]);
     ("S2", [("Pb", Fin 0)])].
Proof. reflexivity. Qed.

Example scenario_pick_priority :
  pickNumber [("lat", VNum (Fin 12)); ("latitude", VNum (Fin 34))] ["latitude"; "lat"]
  = Some (Fin 34).
Proof. reflexivity. Qed.

Example scenario_no_metal_columns :
  (fun r => (hpi r, hei r, cd r, category r)) <$>
    processWaterSamples integerText [[("id", VStr "S1"); ("lat", VStr "28.7")]]
  = [(Fin (0 / 100), Fin (0 / 100), Fin (0 / 100), Safe)].
Proof. reflexivity. Qed.

Example scenario_boundaries :
  categorizeWaterQuality (Fin (99999 # 1000)) = Safe
  /\ categorizeWaterQuality (Fin 100) = SlightlyPolluted
  /\ categorizeWaterQuality (Fin (199999 # 1000)) = SlightlyPolluted
  /\ categorizeWaterQuality (Fin 200) = Hazardous.
Proof. repeat split. Qed.

(** ** Reading numbers from text *)

Example Number_decimal : Number_ "0.025" = Fin (inject_Z 25 * Qpower 10 (-3)).
Proof. reflexivity. Qed.

Example Number_exponent :
  Number_ " -1.5e2 " = Fin (- (inject_Z 15 * Qpower 10 1)).
Proof. reflexivity. Qed.

Example Number_hex : Number_ "0x1F" = Fin 31.
Proof. reflexivity. Qed.

Example Number_trace : Number_ "trace" = NaN.
Proof. reflexivity. Qed.

Example Number_lone_dot : Number_ "." = NaN.
Proof. reflexivity. Qed.

Example Number_signed_hex : Number_ "-0x10" = NaN.
Proof. reflexivity. Qed.

Example Number_empty : Number_ "" = Fin 0.
Proof. reflexivity. Qed.

Example Number_infinity : Number_ "-Infinity" = NInf.
Proof. reflexivity. Qed.

(** * Further properties of the code *)

(** ** Coordinate lookup *)

Lemma get_absent (o : object) (k : string) :
  Obj.has o k = false -> Obj.get o k = VUndefined.
Proof.
  unfold Obj.has, Obj.get. destruct (Obj.lookup o k); [discriminate | reflexivity].
Qed.

(** X1: [pickNumber] returns the parsed value of the first candidate key,
    in list order, whose cell parses, and absent when no candidate key has
    a cell that parses. *)
Theorem pickNumber_first_parsable (sample : object) (keys : list string) :
  match pickNumber sample keys with
  | Some n =>
      exists (before : list string) (key : string) (after : list string),
        keys = (before ++ key :: after)%list
        /\ Forall (fun k => parseNumber (Obj.get sample k) = None) before
        /\ parseNumber (Obj.get sample key) = Some n
  | None => Forall (fun k => parseNumber (Obj.get sample k) = None) keys
  end.
Proof.
  induction keys as [|key rest IH]; cbn [pickNumber]; [constructor|].
  assert (parseNumber (Obj.get sample key) = None ->
          match pickNumber sample rest with
          | Some n =>
              exists before key0 after,
                key :: rest = (before ++ key0 :: after)%list
                /\ Forall (fun k => parseNumber (Obj.get sample k) = None) before
                /\ parseNumber (Obj.get sample key0) = Some n
          | None =>
              Forall (fun k => parseNumber (Obj.get sample k) = None) (key :: rest)
          end) as Hskip.
  { intros Hnone. destruct (pickNumber sample rest) as [n|].
    - destruct IH as (before & key0 & after & -> & Hb & Hk).
      exists (key :: before), key0, after.
      split; [reflexivity | split; [constructor; assumption | exact Hk]].
    - constructor; assumption. }
  destruct (Obj.has sample key) eqn:Hhas.
  - destruct (parseNumber (Obj.get sample key)) as [n|] eqn:Hp;
      [|apply Hskip; reflexivity].
    exists [], key, rest.
    split; [reflexivity | split; [constructor | exact Hp]].
  - apply Hskip. rewrite (get_absent _ _ Hhas). reflexivity.
Qed.

Lemma pickNumber_Some_not_NaN (sample : object) (keys : list string) (n : number) :
  pickNumber sample keys = Some n -> Num.isNaN n = false.
Proof.
  induction keys as [|key rest IH]; cbn [pickNumber]; [discriminate|].
  destruct (Obj.has sample key); [|exact IH].
  destruct (parseNumber (Obj.get sample key)) as [m|] eqn:E; [|exact IH].
  intros [= <-]. apply (parseNumber_Some _ _ E).
Qed.

Lemma concentrationOf_not_NaN (sample : object) (metal : string) :
  Num.isNaN (concentrationOf sample metal) = false.
Proof.
  unfold concentrationOf, orNumber.
  destruct (parseNumber (Obj.get sample metal)) as [n|] eqn:E; [|reflexivity].
  destruct (Num.truthy n); [|reflexivity].
  apply (parseNumber_Some _ _ E).
Qed.

(** ** The per-metal concentrations of a result *)

Lemma setMetal_Forall (P : string * number -> Prop) (m : list (string * number))
    (k : string) (x : number) :
  Forall P m -> P (k, x) -> Forall P (setMetal m k x).
Proof.
  intros Hm Hx. induction Hm as [|[k' x'] m Hh Ht IH]; cbn [setMetal].
  - constructor; [exact Hx | constructor].
  - destruct (String.eqb k k'); constructor; assumption.
Qed.

Lemma collectMetals_Forall (P : string * number -> Prop) (sample : object)
    (metalColumns : list string) :
  (forall metal, P (metal, concentrationOf sample metal)) ->
  Forall P (collectMetals sample metalColumns).
Proof.
  intros HP. unfold collectMetals.
  assert (forall m0, Forall P m0 ->
            Forall P (foldl (fun m metal =>
                               setMetal m metal (concentrationOf sample metal))
                            m0 metalColumns)) as H.
  { induction metalColumns as [|c cols IH]; intros m0 Hm0; cbn [foldl].
    - exact Hm0.
    - apply IH, setMetal_Forall; [exact Hm0 | apply HP]. }
  apply H. constructor.
Qed.

(** X2: no result holds a [NaN] coordinate or a [NaN] concentration: a
    coordinate is absent or a number, a concentration is a number. *)
Theorem results_hold_no_NaN (Number_toString : number -> string)
    (samples : list object) (i : nat) (r : CalculationResult) :
  processWaterSamples Number_toString samples !! i = Some r ->
  latitude r <> Some NaN
  /\ longitude r <> Some NaN
  /\ Forall (fun entry => Num.isNaN entry.2 = false) (metals r).
Proof.
  destruct samples as [|firstSample rest]; [discriminate|].
  unfold processWaterSamples. rewrite list_lookup_imap.
  destruct ((firstSample :: rest) !! i) as [sample|]; [|discriminate].
  intros [= <-]. cbn [processSample latitude longitude metals].
  split; [|split].
  - intros H. apply pickNumber_Some_not_NaN in H. discriminate H.
  - intros H. apply pickNumber_Some_not_NaN in H. discriminate H.
  - apply collectMetals_Forall. intros metal. apply concentrationOf_not_NaN.
Qed.

Lemma results_hold_no_NaN_witness :
  latitude (processSample integerText ["Pb"] 0
              [("lat", VStr "NaN"); ("Pb", VStr "trace")]) <> Some NaN
  /\ longitude (processSample integerText ["Pb"] 0
                  [("lat", VStr "NaN"); ("Pb", VStr "trace")]) <> Some NaN
  /\ Forall (fun entry => Num.isNaN entry.2 = false)
       (metals (processSample integerText ["Pb"] 0
                  [("lat", VStr "NaN"); ("Pb", VStr "trace")])).
Proof.
  apply (results_hold_no_NaN integerText
           [[("lat", VStr "NaN"); ("Pb", VStr "trace")]] 0).
  reflexivity.
Defined.





(** ** Sign, size and order of the indices *)

Lemma nonNegative_cases (x : number) :
  nonNegative x = true <-> x = PInf \/ exists q, x = Fin q /\ (0 <= q)%Q.
Proof.
  unfold nonNegative, Num.geb. destruct x as [| | |q]; cbn [Num.leb].
  - split; [discriminate | intros [H | (q & H & _)]; discriminate H].
  - split; [auto | reflexivity].
  - split; [discriminate | intros [H | (q & H & _)]; discriminate H].
  - rewrite Qle_bool_iff. split.
    + intros H. right. eauto.
    + intros [H | (q' & [= <-] & H)]; [discriminate H | exact H].
Qed.

Lemma infOfSign_pos (t : Q) : (0 < t)%Q -> Num.infOfSign (Num.Qsign t) = PInf.
Proof.
  destruct t as [n d]. unfold Qlt, Num.Qsign. cbn.
  destruct n; cbn; intros H; [lia | reflexivity | lia].
Qed.

Lemma nonNegative_add (x y : number) :
  nonNegative x = true -> nonNegative y = true -> nonNegative (Num.add x y) = true.
Proof.
  rewrite !nonNegative_cases.
  intros [-> | (a & -> & Ha)] [-> | (b & -> & Hb)]; cbn [Num.add];
    try (left; reflexivity).
  right. exists (a + b)%Q. split; [reflexivity | lra].
Qed.

Lemma nonNegative_div_pos (x : number) (s : Q) :
  (0 < s)%Q -> nonNegative x = true -> nonNegative (Num.div x (Fin s)) = true.
Proof.
  intros Hs. rewrite !nonNegative_cases.
  intros [-> | (a & -> & Ha)]; cbn [Num.div].
  - left. apply Qlt_le_weak, Qlt_bool_false_iff in Hs. rewrite Hs. reflexivity.
  - right. rewrite (Qeq_bool_false_of_pos s Hs).
    exists (a / s)%Q. split; [reflexivity|].
    apply Qle_shift_div_l; [exact Hs | lra].
Qed.

Lemma nonNegative_mul_pos (x : number) (t : Q) :
  (0 < t)%Q -> nonNegative x = true ->
  nonNegative (Num.mul (Fin t) x) = true /\ nonNegative (Num.mul x (Fin t)) = true.
Proof.
  intros Ht. rewrite !nonNegative_cases.
  intros [-> | (a & -> & Ha)]; cbn [Num.mul].
  - rewrite (infOfSign_pos t Ht). auto.
  - split; right; eexists; (split; [reflexivity|]);
      apply Qmult_le_0_compat; lra.
Qed.

Lemma nonNegative_sum (f : string -> number) (metals : list string) (a : number) :
  nonNegative a = true ->
  (forall metal, In metal metals -> nonNegative (f metal) = true) ->
  nonNegative (foldl (fun acc metal => Num.add acc (f metal)) a metals) = true.
Proof.
  revert a. induction metals as [|m rest IH]; intros a Ha Hf; cbn [foldl].
  - exact Ha.
  - apply IH.
    + apply nonNegative_add; [exact Ha | apply Hf; left; reflexivity].
    + intros metal Hin. apply Hf. right. exact Hin.
Qed.

Lemma nonNegative_round2 (x : number) :
  nonNegative x = true -> nonNegative (round2 x) = true.
Proof.
  rewrite !nonNegative_cases. intros [-> | (a & -> & Ha)].
  - left. reflexivity.
  - right. rewrite round2_Fin. eexists. split; [reflexivity|].
    apply div100_ge.
    assert (inject_Z 0 <= inject_Z (Qfloor (a * 100 + (1 # 2))))%Q as H.
    { apply floor_at_least. change (inject_Z 0) with 0%Q. lra. }
    change (inject_Z 0) with 0%Q in H. lra.
Qed.

(** *** The limit of a metal and the names an object inherits *)

Lemma inherited_not_in_table (metal : string) :
  Str.includes inheritedNames metal = true ->
  tableLookup WHO_STANDARDS metal = None.
Proof.
  unfold Str.includes, inheritedNames. cbn [existsb]. rewrite !orb_true_iff.
  intros H.
  repeat (destruct H as [H | H];
          [apply String.eqb_eq in H; subst metal; reflexivity|]).
  discriminate H.
Qed.

Lemma standardOf_inherited (metal : string) :
  Str.includes inheritedNames metal = true -> standardOf metal = NaN.
Proof.
  intros H. unfold standardOf. rewrite (inherited_not_in_table _ H), H. reflexivity.
Qed.

(** Away from the inherited names the limit is the one of the
    specification: the table's entry, or 1. *)
Lemma standardOf_own (metal : string) :
  Str.includes inheritedNames metal = false -> standardOf metal = Spec.limit metal.
Proof.
  intros H. unfold standardOf, Spec.limit, orNumber. rewrite H.
  destruct (tableLookup WHO_STANDARDS metal); reflexivity.
Qed.

(** The loop of [calculateHPI] keeps its two sums independently. *)
Lemma foldl_hpiStep (sample : object) (metals : list string) (a b : number) :
  foldl (hpiStep sample) (a, b) metals
  = (foldl (fun acc metal =>
              Num.add acc
                (Num.mul (Num.div Num.one (standardOf metal))
                   (Num.mul (Num.div (concentrationOf sample metal) (standardOf metal))
                      Num.hundred)))
           a metals,
     foldl (fun acc metal => Num.add acc (Num.div Num.one (standardOf metal)))
           b metals).
Proof.
  revert a b. induction metals as [|metal rest IH]; intros a b; cbn [foldl].
  - reflexivity.
  - rewrite <- IH. reflexivity.
Qed.

Lemma foldl_add_from_NaN (f : string -> number) (metals : list string) :
  foldl (fun acc metal => Num.add acc (f metal)) NaN metals = NaN.
Proof.
  induction metals as [|m rest IH]; cbn [foldl Num.add]; [reflexivity | exact IH].
Qed.

Lemma foldl_add_NaN (f : string -> number) (metals : list string) (a : number) :
  List.Exists (fun metal => f metal = NaN) metals ->
  foldl (fun acc metal => Num.add acc (f metal)) a metals = NaN.
Proof.
  intros H. revert a. induction H as [m rest Hm | m rest _ IH]; intros a; cbn [foldl].
  - rewrite Hm. replace (Num.add a NaN) with NaN by (destruct a; reflexivity).
    apply foldl_add_from_NaN.
  - apply IH.
Qed.

Lemma own_or_inherited (metals : list string) :
  List.Forall (fun metal => Str.includes inheritedNames metal = false) metals
  \/ List.Exists (fun metal => Str.includes inheritedNames metal = true) metals.
Proof.
  induction metals as [|m rest [IH | IH]].
  - left. constructor.
  - destruct (Str.includes inheritedNames m) eqn:E.
    + right. apply List.Exists_cons_hd. exact E.
    + left. constructor; assumption.
  - right. apply List.Exists_cons_tl. exact IH.
Qed.

(** A column named like an inherited member makes the total weight [NaN]:
    the guard of [calculateHPI] fails and the result is 0. *)
Lemma calculateHPI_inherited (sample : object) (metals : list string) :
  List.Exists (fun metal => Str.includes inheritedNames metal = true) metals ->
  calculateHPI sample metals = Num.zero.
Proof.
  intros H. unfold calculateHPI. rewrite foldl_hpiStep.
  rewrite (foldl_add_NaN (fun metal => Num.div Num.one (standardOf metal))).
  - reflexivity.
  - eapply List.Exists_impl; [|exact H].
    intros m Hm. cbv beta. rewrite (standardOf_inherited _ Hm). reflexivity.
Qed.

Lemma calculateHEI_inherited (sample : object) (metals : list string) :
  List.Exists (fun metal => Str.includes inheritedNames metal = true) metals ->
  calculateHEI sample metals = NaN.
Proof.
  intros H. unfold calculateHEI.
  apply (foldl_add_NaN
           (fun metal => Num.div (concentrationOf sample metal) (standardOf metal))).
  eapply List.Exists_impl; [|exact H].
  intros m Hm. cbv beta. rewrite (standardOf_inherited _ Hm).
  destruct (concentrationOf sample m); reflexivity.
Qed.

(** Without inherited names the sums of the code are the sums of the
    specification. *)
Lemma own_names_sums (sample : object) (metals : list string) (a b : number) :
  List.Forall (fun metal => Str.includes inheritedNames metal = false) metals ->
  foldl (hpiStep sample) (a, b) metals
  = (foldl (fun acc metal =>
              Num.add acc (Num.mul (Spec.w metal) (Spec.q sample metal)))
           a metals,
     foldl (fun acc metal => Num.add acc (Spec.w metal)) b metals)
  /\ calculateHEI sample metals
     = Spec.sum (fun metal =>
                   Num.div (Spec.concentration sample metal) (Spec.limit metal))
                metals.
Proof.
  intros Hown. rewrite List.Forall_forall in Hown. split.
  - rewrite foldl_hpiStep. f_equal; apply foldl_agree; intros m acc Hin;
      unfold Spec.w, Spec.q; rewrite (standardOf_own m (Hown m Hin)); reflexivity.
  - unfold calculateHEI, Spec.sum. apply foldl_agree. intros m acc Hin.
    cbv zeta. rewrite (standardOf_own m (Hown m Hin)). reflexivity.
Qed.

Lemma calculateHPI_own_names (sample : object) (metals : list string) :
  List.Forall (fun metal => Str.includes inheritedNames metal = false) metals ->
  calculateHPI sample metals = Spec.HPI sample metals.
Proof.
  intros Hown. unfold calculateHPI.
  rewrite (proj1 (own_names_sums sample metals Num.zero Num.zero Hown)).
  destruct metals as [|metal rest]; [reflexivity|].
  unfold Spec.HPI, Spec.sum.
  assert (exists t,
            foldl (fun acc m => Num.add acc (Spec.w m)) Num.zero (metal :: rest)
            = Fin t /\ (0 < t)%Q) as (t & Ht & Hpos).
  { cbn [foldl].
    destruct (Spec_w_positive metal) as (t & -> & Hpos).
    cbn [Num.add Num.zero]. apply total_weight_positive. lra. }
  rewrite Ht. unfold Num.gtb, Num.ltb, Num.zero.
  apply Qlt_bool_iff in Hpos. rewrite Hpos. reflexivity.
Qed.

(** The two shapes of an HPI: zero (for no metal, or with an inherited
    name), else the weighted sum over a positive total weight. *)
Lemma calculateHPI_cases (sample : object) (metals : list string) :
  calculateHPI sample metals = Num.zero
  \/ exists t : Q,
       (0 < t)%Q
       /\ calculateHPI sample metals
          = Num.div
              (foldl (fun acc metal =>
                        Num.add acc (Num.mul (Spec.w metal) (Spec.q sample metal)))
                     Num.zero metals)
              (Fin t).
Proof.
  destruct (own_or_inherited metals) as [Hown | Hinh];
    [|left; apply calculateHPI_inherited, Hinh].
  rewrite (calculateHPI_own_names sample metals Hown).
  destruct metals as [|metal rest]; [left; reflexivity|]. right.
  assert (exists t,
            foldl (fun acc m => Num.add acc (Spec.w m)) Num.zero (metal :: rest)
            = Fin t /\ (0 < t)%Q) as (t & Ht & Hpos).
  { cbn [foldl].
    destruct (Spec_w_positive metal) as (t & -> & Hpos).
    cbn [Num.add Num.zero]. apply total_weight_positive. lra. }
  exists t. split; [exact Hpos|].
  unfold Spec.HPI, Spec.sum. rewrite Ht. reflexivity.
Qed.

(** X24: the name of a metal column decides how [calculateHPI] reads the
    table of limits.  Over a list without a name inherited from
    [Object.prototype] the result is Sigma(w q) / Sigma w with limit =
    table entry or 1; over a list with such a name ([constructor],
    [toString], ...) the HPI is 0 and the HEI and the contamination degree
    are [NaN]; over the empty list the HPI is 0. *)
Theorem indices_by_column_names (sample : object) (metals : list string) :
  (List.Forall (fun metal => Str.includes inheritedNames metal = false) metals ->
   calculateHPI sample metals = Spec.HPI sample metals)
  /\ (List.Exists (fun metal => Str.includes inheritedNames metal = true) metals ->
      calculateHPI sample metals = Fin 0
      /\ calculateHEI sample metals = NaN
      /\ calculateCd sample metals = NaN)
  /\ calculateHPI sample [] = Fin 0.
Proof.
  split; [apply calculateHPI_own_names|]. split; [|reflexivity].
  intros H. split; [apply calculateHPI_inherited, H|].
  split; apply calculateHEI_inherited, H.
Qed.

Lemma indices_by_column_names_witness :
  calculateHPI [("Cd", VStr "0.002"); ("Pb", VStr "0.025")] ["Cd"; "Pb"]
  = Spec.HPI [("Cd", VStr "0.002"); ("Pb", VStr "0.025")] ["Cd"; "Pb"]
  /\ calculateHEI [("Pb", VStr "0.025"); ("toString", VStr "1")] ["Pb"; "toString"]
     = NaN.
Proof.
  split.
  - apply (proj1 (indices_by_column_names
                    [("Cd", VStr "0.002"); ("Pb", VStr "0.025")] ["Cd"; "Pb"])).
    repeat constructor.
  - apply (proj1 (proj2 (indices_by_column_names
                           [("Pb", VStr "0.025"); ("toString", VStr "1")]
                           ["Pb"; "toString"]))).
    apply List.Exists_cons_tl, List.Exists_cons_hd. reflexivity.
Defined.

(** *** Sign *)

Lemma Spec_ratio_non_negative (sample : object) (metal : string) :
  nonNegative (concentrationOf sample metal) = true ->
  nonNegative (Num.div (Spec.concentration sample metal) (Spec.limit metal)) = true.
Proof.
  intros H. destruct (Spec_limit_positive metal) as (s & -> & Hs).
  apply nonNegative_div_pos; assumption.
Qed.

(** X4: when no metal cell of a row parses to a negative number, the HPI
    of the row is not negative (and not [NaN]), before and after rounding;
    so are its HEI and contamination degree when no metal column has a
    name inherited from [Object.prototype]. *)
Theorem indices_non_negative (sample : object) (metals : list string) :
  (forall metal, In metal metals ->
                 nonNegative (concentrationOf sample metal) = true) ->
  nonNegative (calculateHPI sample metals) = true
  /\ nonNegative (round2 (calculateHPI sample metals)) = true
  /\ (List.Forall (fun metal => Str.includes inheritedNames metal = false) metals ->
      nonNegative (calculateHEI sample metals) = true
      /\ nonNegative (calculateCd sample metals) = true
      /\ nonNegative (round2 (calculateHEI sample metals)) = true).
Proof.
  intros Hc.
  assert (nonNegative (calculateHPI sample metals) = true) as Hhpi.
  { destruct (calculateHPI_cases sample metals) as [-> | (t & Ht & ->)];
      [reflexivity|].
    apply nonNegative_div_pos; [exact Ht|].
    apply nonNegative_sum; [reflexivity|].
    intros metal Hin.
    destruct (Spec_w_positive metal) as (w & -> & Hw).
    apply nonNegative_mul_pos; [exact Hw|].
    unfold Spec.q. apply nonNegative_mul_pos; [reflexivity|].
    apply Spec_ratio_non_negative, Hc, Hin. }
  split; [exact Hhpi|]. split; [apply nonNegative_round2, Hhpi|].
  intros Hown.
  assert (nonNegative (calculateHEI sample metals) = true) as Hhei.
  { rewrite (proj2 (own_names_sums sample metals Num.zero Num.zero Hown)).
    apply nonNegative_sum; [reflexivity|].
    intros metal Hin. apply Spec_ratio_non_negative, Hc, Hin. }
  repeat split; try assumption. apply nonNegative_round2, Hhei.
Qed.

Lemma indices_non_negative_witness :
  nonNegative (calculateHPI [("Cd", VStr "0.002"); ("Pb", VStr "trace")] ["Cd"; "Pb"]) = true
  /\ nonNegative
       (round2 (calculateHPI [("Cd", VStr "0.002"); ("Pb", VStr "trace")] ["Cd"; "Pb"])) = true
  /\ nonNegative (calculateHEI [("Cd", VStr "0.002"); ("Pb", VStr "trace")] ["Cd"; "Pb"]) = true.
Proof.
  destruct (indices_non_negative [("Cd", VStr "0.002"); ("Pb", VStr "trace")] ["Cd"; "Pb"])
    as (Hhpi & Hround & Hrest).
  - intros metal [<- | [<- | []]]; reflexivity.
  - split; [exact Hhpi|]. split; [exact Hround|].
    apply Hrest. repeat constructor.
Defined.

(** X5: a larger HPI never gets a better category. *)
Theorem categorizeWaterQuality_monotone (x y : number) :
  Num.leb x y = true ->
  (categoryRank (categorizeWaterQuality x)
   <= categoryRank (categorizeWaterQuality y))%nat.
Proof.
  unfold categorizeWaterQuality.
  destruct x as [| | |a], y as [| | |b]; cbn [Num.leb Num.ltb];
    try discriminate; try (intros _; cbn; lia).
  - intros _. destruct (Num.Qlt_bool a 100), (Num.Qlt_bool a 200); cbn; lia.
  - intros Hab. apply Qle_bool_iff in Hab.
    destruct (Num.Qlt_bool a 100) eqn:Ea1; [cbn; lia|].
    apply Qlt_bool_false_iff in Ea1.
    assert (Num.Qlt_bool b 100 = false) as -> by (apply Qlt_bool_false_iff; lra).
    destruct (Num.Qlt_bool a 200) eqn:Ea2.
    { destruct (Num.Qlt_bool b 200); cbn; lia. }
    apply Qlt_bool_false_iff in Ea2.
    assert (Num.Qlt_bool b 200 = false) as -> by (apply Qlt_bool_false_iff; lra).
    cbn. lia.
Qed.

Lemma categorizeWaterQuality_monotone_witness :
  (categoryRank (categorizeWaterQuality (Fin (99999 # 1000)))
   <= categoryRank (categorizeWaterQuality (Fin 100)))%nat.
Proof.
  apply (categorizeWaterQuality_monotone (Fin (99999 # 1000)) (Fin 100)).
  reflexivity.
Defined.

Lemma div100_le (a b : Q) : (a <= b)%Q -> (a / 100 <= b / 100)%Q.
Proof.
  intros H. unfold Qdiv. apply Qmult_le_compat_r; [exact H | discriminate].
Qed.

(** X6: rounding to two decimals keeps the order: of two HPI values, the
    larger one is never stored as the smaller number. *)
Theorem round2_monotone (x y : number) :
  Num.leb x y = true -> Num.leb (round2 x) (round2 y) = true.
Proof.
  destruct x as [| | |a], y as [| | |b]; cbn [Num.leb];
    try discriminate; try reflexivity.
  intros Hab. apply Qle_bool_iff in Hab.
  rewrite !round2_Fin. cbn [Num.leb]. apply Qle_bool_iff, div100_le.
  rewrite <- Zle_Qle. apply Qfloor_resp_le. lra.
Qed.

Lemma round2_monotone_witness :
  Num.leb (round2 (Fin (99994 # 1000))) (round2 (Fin (99996 # 1000))) = true.
Proof.
  apply (round2_monotone (Fin (99994 # 1000)) (Fin (99996 # 1000))).
  reflexivity.
Defined.

Lemma isZero_cases (x : number) :
  Num.eqb x (Fin 0) = true <-> exists q, x = Fin q /\ (q == 0)%Q.
Proof.
  destruct x as [| | |a]; cbn [Num.eqb].
  - split; [discriminate | intros (q & H & _); discriminate H].
  - split; [discriminate | intros (q & H & _); discriminate H].
  - split; [discriminate | intros (q & H & _); discriminate H].
  - rewrite Qeq_bool_iff. split; [eauto | intros (q & [= <-] & H); exact H].
Qed.

Lemma zero_sum (f : string -> number) (metals : list string) (a : number) :
  Num.eqb a (Fin 0) = true ->
  (forall metal, In metal metals -> Num.eqb (f metal) (Fin 0) = true) ->
  Num.eqb (foldl (fun acc metal => Num.add acc (f metal)) a metals) (Fin 0) = true.
Proof.
  revert a. induction metals as [|m rest IH]; intros a Ha Hf; cbn [foldl].
  - exact Ha.
  - apply IH.
    + specialize (Hf m (or_introl eq_refl)).
      apply isZero_cases in Ha as (x & -> & Hx).
      apply isZero_cases in Hf as (y & -> & Hy).
      apply isZero_cases. exists (x + y)%Q. split; [reflexivity | lra].
    + intros metal Hin. apply Hf. right. exact Hin.
Qed.

Lemma zero_div_pos (x : number) (s : Q) :
  (0 < s)%Q -> Num.eqb x (Fin 0) = true -> Num.eqb (Num.div x (Fin s)) (Fin 0) = true.
Proof.
  intros Hs Hx. apply isZero_cases in Hx as (a & -> & Ha).
  cbn [Num.div]. rewrite (Qeq_bool_false_of_pos s Hs).
  apply isZero_cases. exists (a / s)%Q. split; [reflexivity|].
  rewrite Ha. unfold Qdiv. apply Qmult_0_l.
Qed.

Lemma zero_round2 (x : number) :
  Num.eqb x (Fin 0) = true -> Num.eqb (round2 x) (Fin 0) = true.
Proof.
  intros Hx. apply isZero_cases in Hx as (a & -> & Ha).
  rewrite round2_Fin. apply isZero_cases. eexists. split; [reflexivity|].
  assert (Qfloor (a * 100 + (1 # 2)) = 0%Z) as ->.
  { assert (a * 100 + (1 # 2) == 1 # 2)%Q as -> by (rewrite Ha; reflexivity).
    reflexivity. }
  reflexivity.
Qed.

Lemma Spec_zero_ratio (sample : object) (metal : string) :
  concentrationOf sample metal = Fin 0 ->
  Num.eqb (Num.div (Spec.concentration sample metal) (Spec.limit metal)) (Fin 0) = true.
Proof.
  intros H. change (Spec.concentration sample metal) with (concentrationOf sample metal).
  rewrite H. destruct (Spec_limit_positive metal) as (s & -> & Hs).
  apply zero_div_pos; [exact Hs | reflexivity].
Qed.

(** X7: a row whose metal cells are all missing, unparsable or zero has
    the HPI 0, stored as 0, and is categorized Safe; its HEI and
    contamination degree are 0, stored as 0, when no metal column has a
    name inherited from [Object.prototype]. *)
Theorem clean_row_is_safe (sample : object) (metals : list string) :
  (forall metal, In metal metals -> concentrationOf sample metal = Fin 0) ->
  Num.eqb (calculateHPI sample metals) (Fin 0) = true
  /\ Num.eqb (round2 (calculateHPI sample metals)) (Fin 0) = true
  /\ categorizeWaterQuality (calculateHPI sample metals) = Safe
  /\ (List.Forall (fun metal => Str.includes inheritedNames metal = false) metals ->
      Num.eqb (calculateHEI sample metals) (Fin 0) = true
      /\ Num.eqb (calculateCd sample metals) (Fin 0) = true
      /\ Num.eqb (round2 (calculateHEI sample metals)) (Fin 0) = true).
Proof.
  intros Hc.
  assert (Num.eqb (calculateHPI sample metals) (Fin 0) = true) as Hhpi.
  { destruct (calculateHPI_cases sample metals) as [-> | (t & Ht & ->)];
      [reflexivity|].
    apply zero_div_pos; [exact Ht|].
    apply zero_sum; [reflexivity|].
    intros metal Hin.
    destruct (Spec_w_positive metal) as (w & -> & Hw).
    pose proof (Spec_zero_ratio sample metal (Hc metal Hin)) as Hr.
    unfold Spec.q.
    apply isZero_cases in Hr as (z & -> & Hz).
    apply isZero_cases. eexists. split; [reflexivity|].
    rewrite Hz. ring. }
  split; [exact Hhpi|]. split; [apply zero_round2, Hhpi|]. split.
  - apply isZero_cases in Hhpi as (z & -> & Hz).
    unfold categorizeWaterQuality, Num.ltb.
    assert (Num.Qlt_bool z 100 = true) as ->; [|reflexivity].
    apply Qlt_bool_iff. rewrite Hz. reflexivity.
  - intros Hown.
    assert (Num.eqb (calculateHEI sample metals) (Fin 0) = true) as Hhei.
    { rewrite (proj2 (own_names_sums sample metals Num.zero Num.zero Hown)).
      apply zero_sum; [reflexivity|].
      intros metal Hin. apply Spec_zero_ratio, Hc, Hin. }
    repeat split; try assumption. apply zero_round2, Hhei.
Qed.

Lemma clean_row_is_safe_witness :
  Num.eqb (calculateHPI [("Cd", VStr "0.000"); ("Pb", VStr "trace")] ["Cd"; "Pb"; "Zn"]) (Fin 0) = true
  /\ categorizeWaterQuality
       (calculateHPI [("Cd", VStr "0.000"); ("Pb", VStr "trace")] ["Cd"; "Pb"; "Zn"]) = Safe
  /\ Num.eqb (calculateHEI [("Cd", VStr "0.000"); ("Pb", VStr "trace")] ["Cd"; "Pb"; "Zn"]) (Fin 0) = true.
Proof.
  destruct (clean_row_is_safe [("Cd", VStr "0.000"); ("Pb", VStr "trace")] ["Cd"; "Pb"; "Zn"])
    as (Hhpi & _ & Hsafe & Hrest).
  - intros metal [<- | [<- | [<- | []]]]; reflexivity.
  - split; [exact Hhpi|]. split; [exact Hsafe|].
    apply Hrest. repeat constructor.
Defined.

(** ** Schema validation *)

Lemma isWhiteSpace_lowerChar (a : ascii) :
  Str.isWhiteSpace (Str.lowerChar a) = Str.isWhiteSpace a.
Proof.
  destruct a as [[] [] [] [] [] [] [] []]; reflexivity.
Qed.

Lemma trim_two_letters (k : string) (c1 c2 : ascii) :
  Str.toLowerCase k = String c1 (String c2 EmptyString) ->
  Str.isWhiteSpace c1 = false -> Str.isWhiteSpace c2 = false ->
  Str.trim k = k.
Proof.
  destruct k as [|a [|b [|c k]]]; cbn [Str.toLowerCase]; try discriminate.
  intros [= <- <-]. rewrite !isWhiteSpace_lowerChar. intros Ha Hb.
  unfold Str.trim. cbn [Str.trimStart]. rewrite Ha.
  cbn [Str.trimEnd]. rewrite Hb. reflexivity.
Qed.

(** A header that is a metal symbol as written has no surrounding white
    space. *)
Lemma candidate_trim (k : string) :
  Str.includes Upload.metalCandidates (Str.toLowerCase k) = true -> Str.trim k = k.
Proof.
  unfold Str.includes, Upload.metalCandidates. cbn [existsb].
  rewrite !orb_true_iff.
  intros H.
  repeat (destruct H as [H | H];
          [apply String.eqb_eq in H;
           apply (trim_two_letters k _ _ H); reflexivity|]).
  discriminate H.
Qed.

Lemma candidate_not_excluded (s : string) :
  Str.includes Upload.metalCandidates s = true -> Str.includes exclude s = false.
Proof.
  unfold Str.includes at 1. unfold Upload.metalCandidates. cbn [existsb].
  rewrite !orb_true_iff. intros H.
  repeat (destruct H as [H | H]; [apply String.eqb_eq in H; subst s; reflexivity|]).
  discriminate H.
Qed.

(** Whether a key of the first row is a metal symbol as written, and
    whether one is after trimming. *)
Lemma existsb_raw_trimmed (keys : list string) :
  existsb (fun k => Str.includes Upload.metalCandidates (Str.toLowerCase k)) keys = true ->
  existsb (Str.includes Upload.metalCandidates)
          (Str.toLowerCase <$> (Str.trim <$> keys)) = true.
Proof.
  induction keys as [|k keys IH]; cbn [existsb fmap list_fmap]; [discriminate|].
  rewrite !orb_true_iff. intros [H | H]; [left | right; auto].
  rewrite (candidate_trim k H). exact H.
Qed.

Lemma filter_nil_existsb {A : Type} (f : A -> bool) (l : list A) :
  (length (List.filter f l) =? 0)%nat = negb (existsb f l).
Proof.
  induction l as [|x l IH]; cbn [List.filter existsb]; [reflexivity|].
  destruct (f x); [reflexivity | exact IH].
Qed.

(** The errors of a non-empty file, by cases on its first row. *)
Lemma validateSchema_errors (first : object) (rest : list object) :
  Upload.errors (Upload.validateSchema (first :: rest))
  = if existsb (fun k => Str.includes Upload.metalCandidates (Str.toLowerCase k))
               (Obj.keys first)
    then []
    else if existsb (fun k => Str.includes Upload.metalCandidates
                                (Str.toLowerCase (Str.trim k)))
                    (Obj.keys first)
         then [Upload.unparsedMetalError]
         else [Upload.noMetalError].
Proof.
  unfold Upload.validateSchema. cbn [Upload.errors].
  rewrite filter_nil_existsb.
  assert (existsb (Str.includes Upload.metalCandidates)
                  (Str.toLowerCase <$> (Str.trim <$> Obj.keys first))
          = existsb (fun k => Str.includes Upload.metalCandidates
                                (Str.toLowerCase (Str.trim k)))
                    (Obj.keys first)) as Htrim.
  { induction (Obj.keys first) as [|k keys IH]; cbn [existsb fmap list_fmap];
      [reflexivity | rewrite IH; reflexivity]. }
  destruct (existsb (fun k => Str.includes Upload.metalCandidates (Str.toLowerCase k))
                    (Obj.keys first)) eqn:Eraw.
  - rewrite (existsb_raw_trimmed _ Eraw). reflexivity.
  - rewrite Htrim.
    destruct (existsb _ (Obj.keys first)); reflexivity.
Qed.

(** X8: a file passes validation exactly when it has a row and a column of
    its first row is, as written and whatever its case, one of the ten
    metal symbols; coordinate columns play no part. *)
Theorem validateSchema_ok_iff (rows : list object) :
  Upload.ok (Upload.validateSchema rows) = true
  <-> exists (first : object) (rest : list object) (k : string),
        rows = first :: rest
        /\ In k (Obj.keys first)
        /\ In (Str.toLowerCase k) Upload.metalCandidates.
Proof.
  destruct rows as [|first rest].
  - split; [discriminate | intros (f & r & k & H & _); discriminate H].
  - assert (Upload.ok (Upload.validateSchema (first :: rest))
            = (length (Upload.errors (Upload.validateSchema (first :: rest))) =? 0)%nat)
      as -> by reflexivity.
    rewrite validateSchema_errors.
    destruct (existsb (fun k => Str.includes Upload.metalCandidates (Str.toLowerCase k))
                      (Obj.keys first)) eqn:Eraw.
    + split; [intros _|reflexivity].
      apply existsb_exists in Eraw as (k & Hk & Hc).
      exists first, rest, k. split; [reflexivity | split; [exact Hk|]].
      unfold Str.includes in Hc. apply existsb_exists in Hc as (c & Hin & Heq).
      apply String.eqb_eq in Heq. subst c. exact Hin.
    + split.
      * destruct (existsb (fun k => Str.includes Upload.metalCandidates
                                      (Str.toLowerCase (Str.trim k)))
                          (Obj.keys first)); cbn; discriminate.
      * intros (f & r & k & [= <- <-] & Hk & Hc). exfalso.
        assert (existsb (fun k => Str.includes Upload.metalCandidates (Str.toLowerCase k))
                        (Obj.keys first) = true) as H; [|congruence].
        apply existsb_exists. exists k. split; [exact Hk|].
        unfold Str.includes. apply existsb_exists.
        exists (Str.toLowerCase k). split; [exact Hc | apply String.eqb_refl].
Qed.

(** X9: the errors of validation: an empty file gets the no-rows error
    and no warnings; a first row with a metal symbol as written gets none;
    a first row whose only metal symbols need trimming gets the
    could-not-be-parsed error alone; any other first row gets the
    no-metal error alone. *)
Theorem validateSchema_errors_by_case (first : object) (rest : list object) :
  Upload.validateSchema []
  = {| Upload.ok := false; Upload.errors := [Upload.noRowsError];
       Upload.warnings := None |}
  /\ Upload.errors (Upload.validateSchema (first :: rest))
     = (if existsb (fun k => Str.includes Upload.metalCandidates (Str.toLowerCase k))
                   (Obj.keys first)
        then []
        else if existsb (fun k => Str.includes Upload.metalCandidates
                                    (Str.toLowerCase (Str.trim k)))
                        (Obj.keys first)
             then [Upload.unparsedMetalError]
             else [Upload.noMetalError])
  /\ exists w, Upload.warnings (Upload.validateSchema (first :: rest)) = Some w.
Proof.
  split; [reflexivity|]. split; [apply validateSchema_errors|].
  eexists. reflexivity.
Qed.

Example validateSchema_padded_header :
  Upload.validateSchema [[("id", VStr "S1"); (" Pb ", VStr "0.02")]]
  = {| Upload.ok := false; Upload.errors := [Upload.unparsedMetalError];
       Upload.warnings := Some [Upload.noCoordinatesWarning] |}.
Proof. reflexivity. Qed.

Example validateSchema_upper_case :
  Upload.validateSchema
    [[("ID", VStr "S1"); ("LAT", VStr "28.7"); ("Lng", VStr "77.1"); ("PB", VStr "0.02")]]
  = {| Upload.ok := true; Upload.errors := []; Upload.warnings := Some [] |}.
Proof. reflexivity. Qed.

Lemma validateSchema_ok_raw (first : object) (rest : list object) :
  Upload.ok (Upload.validateSchema (first :: rest))
  = existsb (fun k => Str.includes Upload.metalCandidates (Str.toLowerCase k))
            (Obj.keys first).
Proof.
  assert (Upload.ok (Upload.validateSchema (first :: rest))
          = (length (Upload.errors (Upload.validateSchema (first :: rest))) =? 0)%nat)
    as -> by reflexivity.
  rewrite validateSchema_errors.
  destruct (existsb (fun k => Str.includes Upload.metalCandidates (Str.toLowerCase k))
                    (Obj.keys first)); [reflexivity|].
  destruct (existsb (fun k => Str.includes Upload.metalCandidates
                                (Str.toLowerCase (Str.trim k)))
                    (Obj.keys first)); reflexivity.
Qed.

Lemma candidate_is_metal_column (first : object) (k : string) :
  In k (Obj.keys first) ->
  Str.includes Upload.metalCandidates (Str.toLowerCase k) = true ->
  In k (detectMetalColumns first).
Proof.
  intros Hk Hc. unfold detectMetalColumns. apply filter_In. split; [exact Hk|].
  rewrite (candidate_not_excluded _ Hc). reflexivity.
Qed.

(** X10: the upload stores results only for a file that passed validation,
    and then the batch has one result per row, at least one row, and at
    least one metal column; a file that fails validation stores nothing. *)
Theorem processRows_stores_validated_rows (Number_toString : number -> string)
    (rows : list object) :
  (Upload.ok (Upload.validateSchema rows) = false ->
   Upload.processRows Number_toString rows
   = Upload.SchemaFailed
       (String.concat " " (Upload.errors (Upload.validateSchema rows))))
  /\ (Upload.ok (Upload.validateSchema rows) = true ->
      Upload.processRows Number_toString rows
      = Upload.Stored (processWaterSamples Number_toString rows)
      /\ length (processWaterSamples Number_toString rows) = length rows
      /\ exists (first : object) (rest : list object),
           rows = first :: rest /\ detectMetalColumns first <> []).
Proof.
  unfold Upload.processRows. split; intros Hok; rewrite Hok; cbn [negb].
  - reflexivity.
  - split; [reflexivity|].
    destruct rows as [|first rest]; [discriminate Hok|].
    split; [unfold processWaterSamples; apply length_imap|].
    exists first, rest. split; [reflexivity|].
    rewrite validateSchema_ok_raw in Hok.
    apply existsb_exists in Hok as (k & Hk & Hc).
    pose proof (candidate_is_metal_column first k Hk Hc) as Hin.
    intros Hnil. rewrite Hnil in Hin. destruct Hin.
Qed.

Lemma processRows_stores_validated_rows_witness :
  Upload.processRows integerText [[("id", VStr "S1"); ("Pb", VStr "0.02")]]
  = Upload.Stored
      (processWaterSamples integerText [[("id", VStr "S1"); ("Pb", VStr "0.02")]])
  /\ length (processWaterSamples integerText [[("id", VStr "S1"); ("Pb", VStr "0.02")]])
     = length [[("id", VStr "S1"); ("Pb", VStr "0.02")]]
  /\ exists (first : object) (rest : list object),
       [[("id", VStr "S1"); ("Pb", VStr "0.02")]] = first :: rest
       /\ detectMetalColumns first <> [].
Proof.
  apply (proj2 (processRows_stores_validated_rows integerText
                  [[("id", VStr "S1"); ("Pb", VStr "0.02")]])).
  reflexivity.
Defined.

Lemma length_toLowerCase (s : string) :
  String.length (Str.toLowerCase s) = String.length s.
Proof.
  induction s as [|c s IH]; cbn; [reflexivity | rewrite IH; reflexivity].
Qed.

Lemma includes_length (l : list string) (s : string) :
  Str.includes l s = true -> In (String.length s) (List.map String.length l).
Proof.
  unfold Str.includes. intros H.
  apply existsb_exists in H as (x & Hx & E).
  apply String.eqb_eq in E. subst x. apply in_map, Hx.
Qed.

(** A metal symbol has two letters, the members an object inherits have
    longer names. *)
Lemma candidate_not_inherited (k : string) :
  In (Str.toLowerCase k) Upload.metalCandidates ->
  Str.includes inheritedNames k = false.
Proof.
  intros Hc.
  assert (String.length k = 2%nat) as Hlen.
  { rewrite <- length_toLowerCase.
    cbn in Hc. repeat (destruct Hc as [<- | Hc]; [reflexivity|]). destruct Hc. }
  destruct (Str.includes inheritedNames k) eqn:E; [|reflexivity].
  apply includes_length in E. rewrite Hlen in E. cbn in E.
  repeat (destruct E as [E | E]; [discriminate E|]). destruct E.
Qed.

(** X11: validation reads metal symbols whatever their case, the table of
    limits reads them as written: a column such as [PB] or [pb] passes
    validation and is a metal column, and its limit is the default 1, not
    the limit of the table. *)
Theorem validated_symbol_without_limit (first : object) (rest : list object)
    (k : string) :
  In k (Obj.keys first) ->
  In (Str.toLowerCase k) Upload.metalCandidates ->
  tableLookup WHO_STANDARDS k = None ->
  Upload.ok (Upload.validateSchema (first :: rest)) = true
  /\ In k (detectMetalColumns first)
  /\ standardOf k = Fin 1.
Proof.
  intros Hk Hc Hmiss.
  assert (Str.includes Upload.metalCandidates (Str.toLowerCase k) = true) as Hinc.
  { unfold Str.includes. apply existsb_exists.
    exists (Str.toLowerCase k). split; [exact Hc | apply String.eqb_refl]. }
  split; [|split].
  - rewrite validateSchema_ok_raw. apply existsb_exists. eauto.
  - apply candidate_is_metal_column; assumption.
  - unfold standardOf. rewrite Hmiss, (candidate_not_inherited k Hc). reflexivity.
Qed.

Lemma validated_symbol_without_limit_witness :
  Upload.ok (Upload.validateSchema [[("id", VStr "S1"); ("PB", VStr "0.02")]]) = true
  /\ In "PB" (detectMetalColumns [("id", VStr "S1"); ("PB", VStr "0.02")])
  /\ standardOf "PB" = Fin 1.
Proof.
  apply (validated_symbol_without_limit [("id", VStr "S1"); ("PB", VStr "0.02")] [] "PB").
  - cbn. auto.
  - cbn. auto.
  - reflexivity.
Defined.

(** ** File routing *)

Lemma split_not_nil (sep : ascii) (s : string) : Upload.split sep s <> [].
Proof.
  destruct s as [|c s]; cbn [Upload.split]; [discriminate|].
  destruct (Ascii.eqb c sep); [discriminate|].
  destruct (Upload.split sep s); discriminate.
Qed.

Lemma split_no_separator (sep : ascii) (s : string) :
  ~ In sep (list_ascii_of_string s) -> Upload.split sep s = [s].
Proof.
  induction s as [|c s IH]; cbn [Upload.split list_ascii_of_string]; [reflexivity|].
  intros H. destruct (Ascii.eqb c sep) eqn:E.
  - apply Ascii.eqb_eq in E. exfalso. apply H. left. exact E.
  - rewrite IH; [reflexivity|]. intros Hin. apply H. right. exact Hin.
Qed.

Lemma last_cons_not_nil {A : Type} (x d : A) (l : list A) :
  l <> [] -> List.last (x :: l) d = List.last l d.
Proof.
  destruct l; [congruence | reflexivity].
Qed.

Lemma last_split_after_dot (base ext : string) :
  ~ In "."%char (list_ascii_of_string ext) ->
  List.last (Upload.split "." (base ++ String "." ext)) EmptyString = ext
  /\ (2 <= length (Upload.split "." (base ++ String "." ext)))%nat.
Proof.
  intros Hext. induction base as [|c base [IHlast IHlen]].
  - cbn [String.append Upload.split]. rewrite Ascii.eqb_refl.
    rewrite (split_no_separator _ _ Hext). split; [reflexivity | cbn; lia].
  - cbn [String.append Upload.split].
    destruct (Ascii.eqb c ".").
    + split; [|cbn [length]; lia].
      rewrite last_cons_not_nil by apply split_not_nil. exact IHlast.
    + destruct (Upload.split "." (base ++ String "." ext)) as [|h [|h' t]];
        cbn [length] in IHlen; try lia.
      split; [|cbn [length]; lia].
      exact IHlast.
Qed.

(** A name with a dot ends in a dot followed by a text without one. *)
Lemma last_dot_decomposition (name : string) :
  In "."%char (list_ascii_of_string name) ->
  exists base ext : string,
    name = base ++ String "." ext /\ ~ In "."%char (list_ascii_of_string ext).
Proof.
  induction name as [|c name IH]; cbn [list_ascii_of_string]; [intros []|].
  intros Hin.
  destruct (in_dec Ascii.ascii_dec "."%char (list_ascii_of_string name)) as [Hd | Hd].
  - destruct (IH Hd) as (base & ext & -> & Hext).
    exists (String c base), ext. split; [reflexivity | exact Hext].
  - destruct Hin as [-> | Hin]; [|contradiction].
    exists EmptyString, name. split; [reflexivity | exact Hd].
Qed.

(** X12: a file of more than 10MB is refused whatever its name; otherwise
    the file is routed by the text after the last dot of its name, or by
    the whole name when it has no dot, read without regard to case: csv to
    the CSV reader, xlsx and xls to the spreadsheet reader, anything else
    refused.  So a file named csv, without a dot, is read as CSV. *)
Theorem routeFile_by_extension (size : N) (name : string) :
  exists ext : string,
    ~ In "."%char (list_ascii_of_string ext)
    /\ (name = ext \/ exists base : string, name = base ++ String "." ext)
    /\ Upload.routeFile size name
       = if (10485760 <? size)%N then Upload.TooLarge
         else if String.eqb (Str.toLowerCase ext) "csv" then Upload.ParseCsv
         else if String.eqb (Str.toLowerCase ext) "xlsx"
                 || String.eqb (Str.toLowerCase ext) "xls"
              then Upload.ParseExcel
              else Upload.Unsupported.
Proof.
  destruct (in_dec Ascii.ascii_dec "."%char (list_ascii_of_string name)) as [Hd | Hd].
  - destruct (last_dot_decomposition name Hd) as (base & ext & -> & Hext).
    exists ext. split; [exact Hext|]. split; [right; exists base; reflexivity|].
    unfold Upload.routeFile, Upload.fileExtension.
    rewrite (proj1 (last_split_after_dot base ext Hext)). reflexivity.
  - exists name. split; [exact Hd|]. split; [left; reflexivity|].
    unfold Upload.routeFile, Upload.fileExtension.
    rewrite (split_no_separator _ _ Hd). reflexivity.
Qed.

Example routeFile_last_dot :
  Upload.routeFile 10485760 "wells.2024.CSV" = Upload.ParseCsv.
Proof. reflexivity. Qed.

Example routeFile_trailing_dot :
  Upload.routeFile 1 "wells.csv." = Upload.Unsupported.
Proof. reflexivity. Qed.

Example routeFile_no_dot : Upload.routeFile 1 "csv" = Upload.ParseCsv.
Proof. reflexivity. Qed.

Example routeFile_too_large : Upload.routeFile 10485761 "wells.csv" = Upload.TooLarge.
Proof. reflexivity. Qed.

(** ** Normalized records *)

(** X13: after normalization each of latitude, longitude, hpi, hei and cd
    is [null] or a number that is not [NaN], whatever the stored record
    held under those names. *)
Theorem normalized_fields_are_numbers_or_null (idx : nat) (r : object) :
  Forall (fun k =>
            Obj.get (Results.normalizeRecord idx r) k = VNull
            \/ exists n, Obj.get (Results.normalizeRecord idx r) k = VNum n
                         /\ Num.isNaN n = false)
         ["latitude"; "longitude"; "hpi"; "hei"; "cd"].
Proof.
  destruct (normalizeRecord_fields idx r) as (_ & Hlat & Hlon & Hhpi & Hhei & Hcd & _).
  rewrite !pickNumericAlt_pickNumber in *.
  assert (forall keys,
            Results.nullable (Results.pickNumber r keys) = VNull
            \/ exists n, Results.nullable (Results.pickNumber r keys) = VNum n
                         /\ Num.isNaN n = false) as H.
  { intros keys. destruct (Results.pickNumber r keys) as [n|] eqn:E; [right | left; reflexivity].
    exists n. split; [reflexivity | exact (pickNumber_not_NaN _ _ _ E)]. }
  constructor; [rewrite Hlat; apply H|].
  constructor; [rewrite Hlon; apply H|].
  constructor; [rewrite Hhpi; apply H|].
  constructor; [rewrite Hhei; apply H|].
  constructor; [rewrite Hcd; apply H | constructor].
Qed.

Example normalized_text_becomes_number :
  numericFields
    (Results.normalizeRecord 0
       [("hpi", VStr " 12.5 "); ("hei", VStr "n/a"); ("cd", VBool true);
        ("latitude", VStr "NaN"); ("longitude", VObj)])
  = (VNull, VNull, VNum (Fin (inject_Z 125 * Qpower 10 (-1))), VNull, VNull).
Proof. reflexivity. Qed.

Lemma coalesce_present (a b : value) : isNullish a = false -> coalesce a b = a.
Proof. intros H. unfold coalesce. rewrite H. reflexivity. Qed.

(** X14: an [id] that is present wins over the other id fields, also when
    it is empty: a record whose [id] is the empty string (or 0, or false)
    is dropped even if it has a [sample_id] and valid numbers. *)
Theorem present_id_wins (idx : nat) (r : object) :
  isNullish (Obj.get r "id") = false ->
  Obj.get (Results.normalizeRecord idx r) "id" = Obj.get r "id"
  /\ (ToBoolean (Obj.get r "id") = false ->
      Results.keep (Results.normalizeRecord idx r) = false).
Proof.
  intros Hid.
  assert (Obj.get (Results.normalizeRecord idx r) "id" = Obj.get r "id") as Hget.
  { destruct (normalizeRecord_fields idx r) as (-> & _).
    unfold Results.resolveId.
    rewrite !(coalesce_present (Obj.get r "id")) by exact Hid. reflexivity. }
  split; [exact Hget|].
  intros Hfalsy. unfold Results.keep. rewrite Hget, Hfalsy. reflexivity.
Qed.

Lemma present_id_wins_witness :
  Obj.get (Results.normalizeRecord 0
             [("id", VStr ""); ("sample_id", VStr "W-7"); ("hpi", VNum (Fin 12))]) "id"
  = Obj.get [("id", VStr ""); ("sample_id", VStr "W-7"); ("hpi", VNum (Fin 12))] "id"
  /\ Results.keep
       (Results.normalizeRecord 0
          [("id", VStr ""); ("sample_id", VStr "W-7"); ("hpi", VNum (Fin 12))]) = false.
Proof.
  destruct (present_id_wins 0
              [("id", VStr ""); ("sample_id", VStr "W-7"); ("hpi", VNum (Fin 12))]
              eq_refl) as [Hget Hdrop].
  split; [exact Hget | exact (Hdrop eq_refl)].
Defined.

(** ** From the upload to the results page *)

Lemma stored_coordinates (r : CalculationResult) :
  Results.nullable (Results.pickNumber (storedRecord r) Results.latKeys)
  = match latitude r with Some x => jsonNumber x | None => VNull end
  /\ Results.nullable (Results.pickNumber (storedRecord r) Results.lonKeys)
     = match longitude r with Some y => jsonNumber y | None => VNull end.
Proof.
  destruct r as [i lat lon h e c cat m].
  destruct lat as [[| | |x]|], lon as [[| | |y]|]; split; reflexivity.
Qed.

Lemma stored_indices (r : CalculationResult) :
  Results.nullable (Results.pickNumericAlt (storedRecord r) Results.hpiKeys)
  = jsonNumber (hpi r)
  /\ Results.nullable (Results.pickNumericAlt (storedRecord r) Results.heiKeys)
     = jsonNumber (hei r)
  /\ Results.nullable (Results.pickNumericAlt (storedRecord r) Results.cdKeys)
     = jsonNumber (cd r).
Proof.
  destruct r as [i lat lon h e c cat m].
  destruct lat as [x|], lon as [y|], h as [| | |qh], e as [| | |qe], c as [| | |qc];
    repeat split; reflexivity.
Qed.

Lemma stored_id_category (idx : nat) (r : CalculationResult) :
  Results.resolveId idx (storedRecord r) = VStr (id r)
  /\ Results.resolveCategory (storedRecord r) = VStr (categoryName (category r)).
Proof.
  destruct r as [i lat lon h e c cat m].
  destruct lat as [x|], lon as [y|]; split; reflexivity.
Qed.

Lemma processed_id_not_empty (Number_toString : number -> string)
    (samples : list object) (i : nat) (r : CalculationResult) :
  processWaterSamples Number_toString samples !! i = Some r -> id r <> "".
Proof.
  destruct samples as [|firstSample rest]; [discriminate|].
  unfold processWaterSamples. rewrite list_lookup_imap.
  destruct ((firstSample :: rest) !! i) as [sample|]; [|discriminate].
  intros [= <-]. cbn [processSample id].
  rewrite sampleId_expected. apply expectedId_not_empty.
Qed.

Lemma stored_result_kept (Number_toString : number -> string)
    (samples : list object) (i j : nat) (r : CalculationResult) :
  processWaterSamples Number_toString samples !! i = Some r ->
  Num.isFinite (hpi r) = true ->
  Results.keep (Results.normalizeRecord j (storedRecord r)) = true.
Proof.
  intros Hr Hfin.
  pose proof (processed_id_not_empty _ _ _ _ Hr) as Hid.
  destruct (normalizeRecord_fields j (storedRecord r)) as (Gid & _ & _ & Ghpi & _).
  rewrite (proj1 (stored_id_category j r)) in Gid.
  rewrite (proj1 (stored_indices r)) in Ghpi.
  unfold jsonNumber in Ghpi. rewrite Hfin in Ghpi.
  unfold Results.keep. rewrite Gid, Ghpi. cbn [ToBoolean isNumber].
  apply String.eqb_neq in Hid. rewrite Hid. cbn.
  rewrite !orb_true_r. reflexivity.
Qed.

Lemma filter_all {A : Type} (f : A -> bool) (l : list A) :
  (forall x, In x l -> f x = true) -> List.filter f l = l.
Proof.
  induction l as [|x l IH]; intros H; cbn [List.filter]; [reflexivity|].
  rewrite (H x (or_introl eq_refl)). f_equal.
  apply IH. intros y Hy. apply H. right. exact Hy.
Qed.

(** X15: a result with a finite HPI that goes through [JSON.stringify],
    [JSON.parse] and the normalization of the results page is kept by the
    filter, and is read back with the same id, indices, coordinates and
    category (an infinite coordinate or index reads back as [null]). *)
Theorem stored_result_is_read_back (Number_toString : number -> string)
    (samples : list object) (i j : nat) (r : CalculationResult) :
  processWaterSamples Number_toString samples !! i = Some r ->
  Num.isFinite (hpi r) = true ->
  Results.keep (Results.normalizeRecord j (storedRecord r)) = true
  /\ Obj.get (Results.normalizeRecord j (storedRecord r)) "id" = VStr (id r)
  /\ Obj.get (Results.normalizeRecord j (storedRecord r)) "hpi" = VNum (hpi r)
  /\ Obj.get (Results.normalizeRecord j (storedRecord r)) "hei" = jsonNumber (hei r)
  /\ Obj.get (Results.normalizeRecord j (storedRecord r)) "cd" = jsonNumber (cd r)
  /\ Obj.get (Results.normalizeRecord j (storedRecord r)) "latitude"
     = match latitude r with Some x => jsonNumber x | None => VNull end
  /\ Obj.get (Results.normalizeRecord j (storedRecord r)) "longitude"
     = match longitude r with Some y => jsonNumber y | None => VNull end
  /\ Obj.get (Results.normalizeRecord j (storedRecord r)) "category"
     = VStr (categoryName (category r)).
Proof.
  intros Hr Hfin.
  pose proof (processed_id_not_empty _ _ _ _ Hr) as Hid.
  destruct (normalizeRecord_fields j (storedRecord r))
    as (Gid & Glat & Glon & Ghpi & Ghei & Gcd & Gcat).
  destruct (stored_coordinates r) as [Slat Slon].
  destruct (stored_indices r) as (Shpi & Shei & Scd).
  destruct (stored_id_category j r) as [Sid Scat].
  rewrite Sid in Gid. rewrite Slat in Glat. rewrite Slon in Glon.
  rewrite Shpi in Ghpi. rewrite Shei in Ghei. rewrite Scd in Gcd.
  rewrite Scat in Gcat.
  assert (jsonNumber (hpi r) = VNum (hpi r)) as Hjson
      by (unfold jsonNumber; rewrite Hfin; reflexivity).
  rewrite Hjson in Ghpi.
  split; [|tauto].
  apply (stored_result_kept Number_toString samples i j r Hr Hfin).
Qed.

Lemma stored_result_is_read_back_witness :
  Results.keep
    (Results.normalizeRecord 0
       (storedRecord (processSample integerText ["Pb"] 0
                        [("lat", VStr "28.7"); ("Pb", VStr "0.02")]))) = true
  /\ Obj.get
       (Results.normalizeRecord 0
          (storedRecord (processSample integerText ["Pb"] 0
                           [("lat", VStr "28.7"); ("Pb", VStr "0.02")]))) "id"
     = VStr "Sample 1".
Proof.
  pose proof (stored_result_is_read_back integerText
                [[("lat", VStr "28.7"); ("Pb", VStr "0.02")]] 0 0
                (processSample integerText ["Pb"] 0
                   [("lat", VStr "28.7"); ("Pb", VStr "0.02")])
                eq_refl eq_refl) as (Hkeep & Hid & _).
  split; [exact Hkeep | exact Hid].
Defined.

(** X16: when every result of a batch has a finite HPI, the results page
    shows one record per uploaded row, in row order: the filter drops
    none. *)
Theorem rehydrate_keeps_every_finite_result (Number_toString : number -> string)
    (samples : list object) :
  Forall (fun r => Num.isFinite (hpi r) = true)
         (processWaterSamples Number_toString samples) ->
  Results.rehydrate (storedRecord <$> processWaterSamples Number_toString samples)
  = Results.normalizeResults
      (storedRecord <$> processWaterSamples Number_toString samples)
  /\ length (Results.rehydrate
               (storedRecord <$> processWaterSamples Number_toString samples))
     = length samples.
Proof.
  intros Hfin.
  assert (Results.rehydrate (storedRecord <$> processWaterSamples Number_toString samples)
          = Results.normalizeResults
              (storedRecord <$> processWaterSamples Number_toString samples)) as Heq.
  { unfold Results.rehydrate. apply filter_all.
    intros n Hn.
    apply list_elem_of_In in Hn.
    unfold Results.normalizeResults in Hn.
    apply elem_of_lookup_imap in Hn as (j & s & -> & Hs).
    rewrite list_lookup_fmap in Hs.
    destruct (processWaterSamples Number_toString samples !! j) as [r|] eqn:Er;
      [|discriminate].
    injection Hs as <-.
    apply (stored_result_kept Number_toString samples j j r Er).
    rewrite Forall_forall in Hfin. apply Hfin.
    eapply list_elem_of_lookup_2. exact Er. }
  split; [exact Heq|].
  rewrite Heq. unfold Results.normalizeResults.
  rewrite length_imap, length_fmap.
  destruct samples as [|f rest]; [reflexivity|].
  unfold processWaterSamples. apply length_imap.
Qed.

Lemma rehydrate_keeps_every_finite_result_witness :
  Results.rehydrate
    (storedRecord <$> processWaterSamples integerText
                        [[("id", VStr "S1"); ("Pb", VStr "0.02")];
                         [("id", VStr "S2"); ("Pb", VStr "trace")]])
  = Results.normalizeResults
      (storedRecord <$> processWaterSamples integerText
                          [[("id", VStr "S1"); ("Pb", VStr "0.02")];
                           [("id", VStr "S2"); ("Pb", VStr "trace")]])
  /\ length (Results.rehydrate
               (storedRecord <$> processWaterSamples integerText
                                   [[("id", VStr "S1"); ("Pb", VStr "0.02")];
                                    [("id", VStr "S2"); ("Pb", VStr "trace")]]))
     = length [[("id", VStr "S1"); ("Pb", VStr "0.02")];
               [("id", VStr "S2"); ("Pb", VStr "trace")]].
Proof.
  apply (rehydrate_keeps_every_finite_result integerText
           [[("id", VStr "S1"); ("Pb", VStr "0.02")];
            [("id", VStr "S2"); ("Pb", VStr "trace")]]).
  repeat constructor.
Defined.

(** ** Pages of the results table *)

Lemma ceilDiv_bounds (n : nat) :
  (n <= ResultsPage.ceilDiv n 12 * 12)%nat
  /\ (0 < n -> (ResultsPage.ceilDiv n 12 - 1) * 12 < n)%nat.
Proof.
  unfold ResultsPage.ceilDiv. cbn [Nat.sub].
  pose proof (Nat.div_mod_eq (n + 11) 12) as Hdm.
  pose proof (Nat.mod_upper_bound (n + 11) 12 ltac:(discriminate)) as Hm.
  set (d := ((n + 11) / 12)%nat) in *. set (m := ((n + 11) mod 12)%nat) in *.
  lia.
Qed.

Lemma totalPages_bounds {A : Type} (l : list A) :
  (1 <= ResultsPage.totalPages l)%nat
  /\ (length l <= ResultsPage.totalPages l * 12)%nat
  /\ (l <> [] -> (ResultsPage.totalPages l - 1) * 12 < length l)%nat.
Proof.
  unfold ResultsPage.totalPages, ResultsPage.PAGE_SIZE.
  destruct (ceilDiv_bounds (length l)) as [Hup Hlow].
  split; [lia|]. split; [lia|].
  intros Hne. assert (0 < length l)%nat as Hpos by (destruct l; [congruence | cbn; lia]).
  specialize (Hlow Hpos). lia.
Qed.

Lemma paged_take_drop {A : Type} (p : nat) (l : list A) :
  (1 <= p)%nat -> ResultsPage.paged p l = take 12 (drop ((p - 1) * 12) l).
Proof.
  intros Hp. unfold ResultsPage.paged, ResultsPage.slice, ResultsPage.PAGE_SIZE.
  replace (p * 12 - (p - 1) * 12)%nat with 12%nat by lia. reflexivity.
Qed.

Lemma pages_concat {A : Type} (l : list A) (k : nat) :
  concat ((fun p => ResultsPage.paged p l) <$> seq 1 k) = take (k * 12) l.
Proof.
  induction k as [|k IH]; [reflexivity|].
  rewrite seq_S, fmap_app, concat_app, IH. cbn [fmap list_fmap concat].
  rewrite app_nil_r, paged_take_drop by lia.
  replace (1 + k - 1)%nat with k by lia.
  rewrite take_take_drop. f_equal. lia.
Qed.

Lemma paged_not_empty {A : Type} (p : nat) (l : list A) :
  (1 <= p <= ResultsPage.totalPages l)%nat -> l <> [] ->
  ResultsPage.paged p l <> [].
Proof.
  intros [Hp1 Hp2] Hne. rewrite paged_take_drop by exact Hp1.
  destruct (totalPages_bounds l) as (_ & _ & Hlow). specialize (Hlow Hne).
  intros Hnil. apply take_nil_inv in Hnil as [H | H]; [discriminate H|].
  apply drop_nil_inv in H. nia.
Qed.

(** X17: the pages of the table split the filtered list: pages 1 to
    [totalPages], put end to end, are the list (no row lost, repeated or
    reordered); a page has at most 12 rows; every page from 1 to
    [totalPages] of a non-empty list shows a row, and later pages are
    empty. *)
Theorem pages_split_the_list {A : Type} (l : list A) :
  concat ((fun p => ResultsPage.paged p l) <$> seq 1 (ResultsPage.totalPages l)) = l
  /\ (forall p, length (ResultsPage.paged p l) <= 12)%nat
  /\ (forall p, (1 <= p <= ResultsPage.totalPages l)%nat -> l <> [] ->
                ResultsPage.paged p l <> [])
  /\ (forall p, (ResultsPage.totalPages l < p)%nat -> ResultsPage.paged p l = []).
Proof.
  destruct (totalPages_bounds l) as (Hone & Hup & Hlow).
  split; [|split; [|split]].
  - rewrite pages_concat. apply take_ge. exact Hup.
  - intros p. unfold ResultsPage.paged, ResultsPage.slice, ResultsPage.PAGE_SIZE.
    rewrite length_take. lia.
  - intros p Hp Hne. apply paged_not_empty; assumption.
  - intros p Hp. rewrite paged_take_drop by lia.
    rewrite drop_ge by nia. apply take_nil.
Qed.

Lemma pages_split_the_list_witness :
  ResultsPage.paged 2 (seq 0 13) <> [] /\ ResultsPage.paged 3 (seq 0 13) = [].
Proof.
  split.
  - apply (proj1 (proj2 (proj2 (pages_split_the_list (seq 0 13)))) 2%nat).
    + cbn. lia.
    + discriminate.
  - apply (proj2 (proj2 (proj2 (pages_split_the_list (seq 0 13)))) 3%nat).
    cbn. lia.
Defined.

Example paged_second_page : ResultsPage.paged 2 (seq 0 13) = [12%nat].
Proof. reflexivity. Qed.

Lemma totalPages_mono {A : Type} (l l' : list A) :
  (length l <= length l')%nat ->
  (ResultsPage.totalPages l <= ResultsPage.totalPages l')%nat.
Proof.
  intros H. unfold ResultsPage.totalPages, ResultsPage.ceilDiv.
  apply Nat.max_le_compat_l, Nat.Div0.div_le_mono. lia.
Qed.

Lemma filter_filter_length {A : Type} (f g : A -> bool) (l : list A) :
  (length (List.filter f (List.filter g l)) <= length (List.filter f l))%nat.
Proof.
  induction l as [|x l IH]; cbn [List.filter]; [lia|].
  destruct (g x); cbn [List.filter]; destruct (f x); cbn [length]; lia.
Qed.

(** Clearing the search never shortens the list under the same category
    filter. *)
Lemma filtered_clear_query (Number_toString : number -> string)
    (results : list object) (query : string) (categoryFilter : option string) :
  (length (ResultsPage.filtered Number_toString results query categoryFilter)
   <= length (ResultsPage.filtered Number_toString results "" categoryFilter))%nat.
Proof.
  unfold ResultsPage.filtered. cbn [Str.trim Str.trimStart Str.trimEnd String.eqb negb].
  destruct (negb (String.eqb (Str.trim query) "")); [|lia].
  destruct categoryFilter as [c|].
  - destruct (negb (String.eqb c "")).
    + apply filter_filter_length.
    + apply filter_length_le.
  - apply filter_length_le.
Qed.

(** X18: whatever the user types, selects or clicks, the page number stays
    between 1 and the number of pages of the list shown, so the table
    shows a row whenever the filters leave one. *)
Theorem page_stays_in_range (Number_toString : number -> string)
    (results : list object) (st : ResultsPage.View) :
  ResultsPage.reachable Number_toString results st ->
  (1 <= ResultsPage.page st
   <= ResultsPage.totalPages (ResultsPage.shown Number_toString results st))%nat
  /\ (ResultsPage.shown Number_toString results st <> [] ->
      ResultsPage.paged (ResultsPage.page st)
        (ResultsPage.shown Number_toString results st) <> []).
Proof.
  intros Hreach.
  assert (1 <= ResultsPage.page st
          <= ResultsPage.totalPages (ResultsPage.shown Number_toString results st))%nat
    as Hrange.
  { induction Hreach as [|st e _ IH].
    - cbn [ResultsPage.initialView ResultsPage.page].
      pose proof (totalPages_bounds
                    (ResultsPage.shown Number_toString results ResultsPage.initialView)).
      lia.
    - pose proof (totalPages_bounds (ResultsPage.shown Number_toString results st))
        as (Hone & _).
      destruct e; cbn [ResultsPage.handle ResultsPage.page];
        try (match goal with
             | |- (1 <= 1 <= ResultsPage.totalPages ?l)%nat =>
                 pose proof (totalPages_bounds l); lia
             end);
        unfold ResultsPage.shown in *;
        cbn [ResultsPage.query ResultsPage.categoryFilter] in *;
        try lia.
      pose proof (filtered_clear_query Number_toString results
                    (ResultsPage.query st) (ResultsPage.categoryFilter st)) as Hlen.
      apply totalPages_mono in Hlen. lia. }
  split; [exact Hrange|].
  intros Hne. apply paged_not_empty; assumption.
Qed.

Lemma page_stays_in_range_witness :
  (1 <= ResultsPage.page
          (ResultsPage.handle integerText [[("id", VStr "S1")]]
             (ResultsPage.handle integerText [[("id", VStr "S1")]]
                ResultsPage.initialView ResultsPage.NextPage)
             (ResultsPage.TypeQuery "zz"))
   <= ResultsPage.totalPages
        (ResultsPage.shown integerText [[("id", VStr "S1")]]
           (ResultsPage.handle integerText [[("id", VStr "S1")]]
              (ResultsPage.handle integerText [[("id", VStr "S1")]]
                 ResultsPage.initialView ResultsPage.NextPage)
              (ResultsPage.TypeQuery "zz"))))%nat.
Proof.
  apply (page_stays_in_range integerText [[("id", VStr "S1")]]).
  apply ResultsPage.reachable_handle, ResultsPage.reachable_handle,
    ResultsPage.reachable_initial.
Defined.

(** ** Statistics and charts *)

Lemma isString_three_ways (v : value) :
  (if ResultsPage.isString v "Safe" then 1 else 0)
  + (if ResultsPage.isString v "Slightly Polluted" then 1 else 0)
  + (if ResultsPage.isString v "Hazardous" then 1 else 0)
  + (if negb (ResultsPage.isString v "Safe"
              || ResultsPage.isString v "Slightly Polluted"
              || ResultsPage.isString v "Hazardous") then 1 else 0)
  = 1%nat.
Proof.
  destruct v as [| |b|n|t|]; try reflexivity. cbn [ResultsPage.isString].
  destruct (String.eqb t "Safe") eqn:E1;
    [apply String.eqb_eq in E1; subst t; reflexivity|].
  destruct (String.eqb t "Slightly Polluted") eqn:E2;
    [apply String.eqb_eq in E2; subst t; reflexivity|].
  destruct (String.eqb t "Hazardous"); reflexivity.
Qed.

Lemma filter_length_cons {A : Type} (f : A -> bool) (x : A) (l : list A) :
  length (List.filter f (x :: l))
  = ((if f x then 1 else 0) + length (List.filter f l))%nat.
Proof.
  cbn [List.filter]. destruct (f x); reflexivity.
Qed.

Lemma stored_category (r : CalculationResult) :
  Obj.get (storedRecord r) "category" = VStr (categoryName (category r)).
Proof.
  destruct r as [i lat lon h e c cat m].
  destruct lat as [x|], lon as [y|]; reflexivity.
Qed.

(** X19: the category counts of the statistics cards and of the pie chart
    add up: every record is counted once, under Safe, Slightly Polluted,
    Hazardous, or under none of them when its category is another value;
    the slices of the pie chart sum to the three counts; and for the stored
    results of a batch the three counts sum to the number of results. *)
Theorem category_counts_add_up (results : list object) :
  (ResultsPage.countCategory "Safe" results
   + ResultsPage.countCategory "Slightly Polluted" results
   + ResultsPage.countCategory "Hazardous" results
   + length (List.filter
               (fun r => negb (ResultsPage.isString (Obj.get r "category") "Safe"
                               || ResultsPage.isString (Obj.get r "category")
                                    "Slightly Polluted"
                               || ResultsPage.isString (Obj.get r "category")
                                    "Hazardous"))
               results)
   = length results)%nat
  /\ (list_sum ((fun d => d.2) <$> Visualization.categoryData results)
      = ResultsPage.countCategory "Safe" results
        + ResultsPage.countCategory "Slightly Polluted" results
        + ResultsPage.countCategory "Hazardous" results)%nat
  /\ (forall batch : list CalculationResult,
        (ResultsPage.countCategory "Safe" (storedRecord <$> batch)
         + ResultsPage.countCategory "Slightly Polluted" (storedRecord <$> batch)
         + ResultsPage.countCategory "Hazardous" (storedRecord <$> batch)
         = length batch)%nat).
Proof.
  split; [|split].
  - unfold ResultsPage.countCategory.
    induction results as [|r results IH]; [reflexivity|].
    rewrite !filter_length_cons. cbn [length].
    pose proof (isString_three_ways (Obj.get r "category")). lia.
  - unfold Visualization.categoryData.
    destruct (ResultsPage.countCategory "Safe" results),
      (ResultsPage.countCategory "Slightly Polluted" results),
      (ResultsPage.countCategory "Hazardous" results); cbn; lia.
  - intros batch. unfold ResultsPage.countCategory.
    induction batch as [|r batch IH]; [reflexivity|].
    cbn [fmap list_fmap]. rewrite !filter_length_cons. cbn [length].
    rewrite stored_category. destruct (category r); cbn; lia.
Qed.

(** ** Exports and the map *)

Lemma In_map_filter {A B : Type} (g : A -> B) (p : A -> bool) (l : list A) (y : B) :
  In y (g <$> List.filter p l) <-> exists x, In x l /\ p x = true /\ y = g x.
Proof.
  rewrite <- list_elem_of_In, list_elem_of_fmap. split.
  - intros (x & -> & Hx). apply list_elem_of_In, filter_In in Hx as [Hin Hp]. eauto.
  - intros (x & Hin & Hp & ->). exists x. split; [reflexivity|].
    apply list_elem_of_In, filter_In. auto.
Qed.

Lemma nullable_is_number (x : option number) :
  isNumber (Results.nullable x) = true -> exists n, x = Some n.
Proof.
  destruct x as [n|]; [eauto | discriminate].
Qed.

(** X20: the GeoJSON export of the rehydrated list has one point per
    stored record that has a non-empty id and both coordinates resolved,
    and no other; the point holds the longitude first and the latitude
    second, with the resolved id, indices and category as properties. *)
Theorem geoFeatures_of_rehydrated (parsed : list object) (f : ResultsPage.Feature) :
  In f (ResultsPage.geoFeatures (Results.rehydrate parsed))
  <-> exists (idx : nat) (r : object) (lat lon : number),
        parsed !! idx = Some r
        /\ ToBoolean (Results.resolveId idx r) = true
        /\ Results.pickNumber r Results.latKeys = Some lat
        /\ Results.pickNumber r Results.lonKeys = Some lon
        /\ f = {| ResultsPage.featureType := "Feature";
                  ResultsPage.geometryType := "Point";
                  ResultsPage.coordinates := [VNum lon; VNum lat];
                  ResultsPage.properties :=
                    [("id", Results.resolveId idx r);
                     ("hpi", Results.nullable
                               (Results.pickNumericAlt r Results.hpiKeys));
                     ("hei", Results.nullable
                               (Results.pickNumericAlt r Results.heiKeys));
                     ("cd", Results.nullable
                              (Results.pickNumericAlt r Results.cdKeys));
                     ("category", Results.resolveCategory r)] |}.
Proof.
  unfold ResultsPage.geoFeatures. rewrite In_map_filter.
  unfold Results.rehydrate, Results.normalizeResults.
  split.
  - intros (n & Hn & Hnum & ->).
    apply filter_In in Hn as [Hn Hkeep].
    apply list_elem_of_In, elem_of_lookup_imap in Hn as (idx & r & -> & Hr).
    destruct (normalizeRecord_fields idx r)
      as (Gid & Glat & Glon & Ghpi & Ghei & Gcd & Gcat).
    unfold Results.keep in Hkeep. rewrite Gid in Hkeep.
    apply andb_true_iff in Hkeep as [Hid _].
    rewrite Glat, Glon in Hnum. apply andb_true_iff in Hnum as [Hlat Hlon].
    apply nullable_is_number in Hlat as (lat & Hlat).
    apply nullable_is_number in Hlon as (lon & Hlon).
    exists idx, r, lat, lon.
    rewrite Gid, Glat, Glon, Ghpi, Ghei, Gcd, Gcat, Hlat, Hlon. auto.
  - intros (idx & r & lat & lon & Hr & Hid & Hlat & Hlon & ->).
    destruct (normalizeRecord_fields idx r)
      as (Gid & Glat & Glon & Ghpi & Ghei & Gcd & Gcat).
    exists (Results.normalizeRecord idx r).
    rewrite Gid, Glat, Glon, Ghpi, Ghei, Gcd, Gcat, Hlat, Hlon.
    split; [|split; reflexivity].
    apply filter_In. split.
    + apply list_elem_of_In, elem_of_lookup_imap. eauto.
    + unfold Results.keep. rewrite Gid, Glat, Glon, Hid, Hlat, Hlon. reflexivity.
Qed.

Lemma stored_latitude_longitude (r : CalculationResult) :
  Obj.get (storedRecord r) "latitude"
  = match latitude r with Some x => jsonNumber x | None => VUndefined end
  /\ Obj.get (storedRecord r) "longitude"
     = match longitude r with Some y => jsonNumber y | None => VUndefined end.
Proof.
  destruct r as [i lat lon h e c cat m].
  destruct lat as [x|], lon as [y|]; split; reflexivity.
Qed.

Lemma truthy_coordinate (x : option number) :
  ToBoolean (match x with Some n => jsonNumber n | None => VUndefined end) = true
  <-> exists q, x = Some (Fin q) /\ ~ (q == 0)%Q.
Proof.
  destruct x as [[| | |q]|]; cbn.
  - split; [discriminate | intros (q & H & _); discriminate H].
  - split; [discriminate | intros (q & H & _); discriminate H].
  - split; [discriminate | intros (q & H & _); discriminate H].
  - rewrite negb_true_iff. split.
    + intros H. exists q. split; [reflexivity|].
      intros Hq. apply Qeq_bool_iff in Hq. congruence.
    + intros (q' & [= <-] & Hq). destruct (Qeq_bool q 0) eqn:E; [|reflexivity].
      apply Qeq_bool_iff in E. contradiction.
  - split; [discriminate | intros (q & H & _); discriminate H].
Qed.

(** X21: the map of the visualization page shows a stored result exactly
    when both its coordinates are finite numbers other than 0: a sample on
    the equator or on the prime meridian is left off the map. *)
Theorem map_leaves_out_zero_coordinates (batch : list CalculationResult) (r : object) :
  In r (Visualization.samplesWithCoordinates (storedRecord <$> batch))
  <-> exists (result : CalculationResult) (x y : Q),
        In result batch
        /\ r = storedRecord result
        /\ latitude result = Some (Fin x)
        /\ longitude result = Some (Fin y)
        /\ ~ (x == 0)%Q /\ ~ (y == 0)%Q.
Proof.
  unfold Visualization.samplesWithCoordinates.
  rewrite filter_In, <- list_elem_of_In, list_elem_of_fmap.
  split.
  - intros [(result & -> & Hin) Hboth].
    destruct (stored_latitude_longitude result) as [Hlat Hlon].
    rewrite Hlat, Hlon in Hboth. apply andb_true_iff in Hboth as [Hx Hy].
    apply truthy_coordinate in Hx as (x & Hx & Hx0).
    apply truthy_coordinate in Hy as (y & Hy & Hy0).
    exists result, x, y. apply list_elem_of_In in Hin. auto 10.
  - intros (result & x & y & Hin & -> & Hx & Hy & Hx0 & Hy0).
    split; [exists result; split; [reflexivity | apply list_elem_of_In, Hin]|].
    destruct (stored_latitude_longitude result) as [-> ->].
    apply andb_true_iff. split; apply truthy_coordinate; eauto.
Qed.

Example map_and_geojson_disagree :
  let stored :=
    storedRecord <$> processWaterSamples integerText
                       [[("id", VStr "Quito"); ("lat", VStr "0"); ("lon", VStr "-78.5");
                         ("Pb", VStr "0.02")]] in
  Visualization.samplesWithCoordinates stored = []
  /\ length (ResultsPage.geoFeatures (Results.rehydrate stored)) = 1%nat.
Proof. split; reflexivity. Qed.

(** ** CSV export *)

Lemma quotes_append (s t : string) :
  count_occ ascii_dec (list_ascii_of_string (s ++ t)) ResultsPage.dquote
  = (count_occ ascii_dec (list_ascii_of_string s) ResultsPage.dquote
     + count_occ ascii_dec (list_ascii_of_string t) ResultsPage.dquote)%nat.
Proof.
  induction s as [|c s IH]; [reflexivity|].
  cbn [String.append list_ascii_of_string count_occ].
  destruct (ascii_dec c ResultsPage.dquote); rewrite IH; reflexivity.
Qed.

Lemma doubleQuotes_even (s : string) :
  Nat.Even (count_occ ascii_dec (list_ascii_of_string (ResultsPage.doubleQuotes s))
                      ResultsPage.dquote).
Proof.
  induction s as [|c s [k IH]]; [exists 0%nat; reflexivity|].
  cbn [ResultsPage.doubleQuotes].
  destruct (Ascii.eqb c ResultsPage.dquote) eqn:E.
  - exists (S k). cbn [list_ascii_of_string count_occ].
    destruct (ascii_dec ResultsPage.dquote ResultsPage.dquote); [lia | congruence].
  - exists k. cbn [list_ascii_of_string count_occ].
    apply Ascii.eqb_neq in E.
    destruct (ascii_dec c ResultsPage.dquote); [congruence | exact IH].
Qed.

(** X22: nothing is exported for an empty list; a cell that is [null] or
    [undefined] is exported as the empty field; every exported field holds
    an even number of double quotes; and a field holds a comma only
    between enclosing double quotes. *)
Theorem csvField_quoting (Number_toString : number -> string) (val : value) :
  ResultsPage.exportToCSV Number_toString [] = None
  /\ (isNullish val = true -> ResultsPage.csvField Number_toString val = "")
  /\ Nat.Even (count_occ ascii_dec
                 (list_ascii_of_string (ResultsPage.csvField Number_toString val))
                 ResultsPage.dquote)
  /\ (ResultsPage.hasComma (ResultsPage.csvField Number_toString val) = true ->
      exists s, ResultsPage.csvField Number_toString val
                = String ResultsPage.dquote (s ++ String ResultsPage.dquote "")).
Proof.
  split; [reflexivity|].
  unfold ResultsPage.csvField.
  destruct (isNullish val).
  - split; [reflexivity|]. split; [exists 0%nat; reflexivity | discriminate].
  - split; [discriminate|].
    set (s := ResultsPage.doubleQuotes (String_ Number_toString val)).
    destruct (ResultsPage.hasComma s) eqn:Hc.
    + split; [|eauto].
      destruct (doubleQuotes_even (String_ Number_toString val)) as [k Hk].
      fold s in Hk. exists (S k).
      cbn [list_ascii_of_string count_occ].
      destruct (ascii_dec ResultsPage.dquote ResultsPage.dquote); [|congruence].
      rewrite quotes_append, Hk. cbn [list_ascii_of_string count_occ].
      destruct (ascii_dec ResultsPage.dquote ResultsPage.dquote); [lia | congruence].
    + split; [apply doubleQuotes_even | congruence].
Qed.

Lemma csvField_quoting_witness :
  ResultsPage.csvField integerText VNull = "".
Proof.
  apply (proj1 (proj2 (csvField_quoting integerText VNull))). reflexivity.
Defined.

Example csvField_comma :
  ResultsPage.csvField integerText (VStr "Well 4, north")
  = String ResultsPage.dquote ("Well 4, north" ++ String ResultsPage.dquote "").
Proof. reflexivity. Qed.

(** ** Search *)

Lemma lowerChar_idempotent (a : ascii) :
  Str.lowerChar (Str.lowerChar a) = Str.lowerChar a.
Proof.
  destruct a as [[] [] [] [] [] [] [] []]; reflexivity.
Qed.

Lemma toLowerCase_idempotent (s : string) :
  Str.toLowerCase (Str.toLowerCase s) = Str.toLowerCase s.
Proof.
  induction s as [|c s IH]; cbn [Str.toLowerCase]; [reflexivity|].
  rewrite lowerChar_idempotent, IH. reflexivity.
Qed.

Lemma trimStart_toLowerCase (s : string) :
  Str.trimStart (Str.toLowerCase s) = Str.toLowerCase (Str.trimStart s).
Proof.
  induction s as [|c s IH]; cbn [Str.toLowerCase Str.trimStart]; [reflexivity|].
  rewrite isWhiteSpace_lowerChar. destruct (Str.isWhiteSpace c); [exact IH | reflexivity].
Qed.

Lemma trimEnd_toLowerCase (s : string) :
  Str.trimEnd (Str.toLowerCase s) = Str.toLowerCase (Str.trimEnd s).
Proof.
  induction s as [|c s IH]; cbn [Str.toLowerCase Str.trimEnd]; [reflexivity|].
  rewrite IH, isWhiteSpace_lowerChar.
  destruct (Str.trimEnd s) as [|d t]; cbn [Str.toLowerCase].
  - destruct (Str.isWhiteSpace c); reflexivity.
  - reflexivity.
Qed.

Lemma trim_toLowerCase (s : string) :
  Str.trim (Str.toLowerCase s) = Str.toLowerCase (Str.trim s).
Proof.
  unfold Str.trim. rewrite trimStart_toLowerCase. apply trimEnd_toLowerCase.
Qed.

Lemma trimStart_head (s : string) :
  Str.trimStart s = ""
  \/ exists c r, Str.trimStart s = String c r /\ Str.isWhiteSpace c = false.
Proof.
  induction s as [|c s IH]; cbn [Str.trimStart]; [left; reflexivity|].
  destruct (Str.isWhiteSpace c) eqn:E; [exact IH | right; eauto].
Qed.

Lemma trimEnd_head (c : ascii) (r : string) :
  Str.isWhiteSpace c = false -> exists r', Str.trimEnd (String c r) = String c r'.
Proof.
  intros Hc. cbn [Str.trimEnd]. rewrite Hc.
  destruct (Str.trimEnd r); eauto.
Qed.

Lemma trimEnd_cons_kept (c d : ascii) (u t : string) :
  Str.trimEnd u = String d t -> Str.trimEnd (String c u) = String c (String d t).
Proof.
  intros H. cbn [Str.trimEnd]. rewrite H. reflexivity.
Qed.

Lemma trimEnd_idempotent (s : string) :
  Str.trimEnd (Str.trimEnd s) = Str.trimEnd s.
Proof.
  induction s as [|c s IH]; [reflexivity|].
  cbn [Str.trimEnd].
  destruct (Str.trimEnd s) as [|d t] eqn:E.
  - destruct (Str.isWhiteSpace c) eqn:Hc; [reflexivity|].
    cbn [Str.trimEnd]. rewrite Hc. reflexivity.
  - apply trimEnd_cons_kept. exact IH.
Qed.

Lemma trim_idempotent (s : string) : Str.trim (Str.trim s) = Str.trim s.
Proof.
  unfold Str.trim.
  destruct (trimStart_head s) as [-> | (c & r & -> & Hc)]; [reflexivity|].
  destruct (trimEnd_head c r Hc) as (r' & Hr).
  rewrite Hr. cbn [Str.trimStart]. rewrite Hc, <- Hr.
  apply trimEnd_idempotent.
Qed.

Lemma toLowerCase_empty (s : string) :
  String.eqb (Str.toLowerCase s) "" = String.eqb s "".
Proof.
  destruct s; reflexivity.
Qed.

(** X23: the search ignores the case of the query and the white space
    around it: a query and its trimmed, lower-case form show the same
    rows. *)
Theorem search_ignores_case_and_padding (Number_toString : number -> string)
    (results : list object) (query : string) (categoryFilter : option string) :
  ResultsPage.filtered Number_toString results query categoryFilter
  = ResultsPage.filtered Number_toString results
      (Str.toLowerCase (Str.trim query)) categoryFilter.
Proof.
  unfold ResultsPage.filtered.
  rewrite trim_toLowerCase, trim_idempotent, toLowerCase_empty,
    toLowerCase_idempotent.
  reflexivity.
Qed.

Example search_scenario :
  ResultsPage.filtered integerText
    [[("id", VStr "Well-A1"); ("category", VStr "Safe")];
     [("id", VStr "well-b2"); ("category", VStr "Hazardous")];
     [("id", VStr "Spring"); ("latitude", VNum (Fin 12)); ("category", VStr "Safe")]]
    "  WELL " (Some "Safe")
  = [[("id", VStr "Well-A1"); ("category", VStr "Safe")]].
Proof. reflexivity. Qed.
